(** * Verification model of the RAG streaming service (rag_demo)

    Shallow embedding of the Python sources under [src/]:
    - [infra/redis_pubsub.py]   : [StreamMessage.to_json], [RedisPublisher]
    - [api/routes/stream.py]    : the WebSocket subscription ([websocket_stream])
    - [api/routes/chat.py]      : [_stream_workflow_to_redis], [_normalize_update],
                                  [chat_stream_endpoint], [_filter_user_visible_messages],
                                  [delete_thread]
    - [agent/graph.py]          : the LangGraph workflow and its nodes
    - [tools/*.py]              : the tool capabilities and [ProjectSearchClient]
    - [config/settings.py]      : [Settings] and [Settings.psycopg_connection]
    - [api/schemas.py]          : the request model [ChatRequest]

    Python exceptions are modelled as an explicit result type; Redis and the
    database as explicit stores; network answers as scripted inputs. *)

From Stdlib Require Import ZArith Lia Ascii String.
From stdpp Require Import base gmap list strings pretty sorting.

#[global] Set Warnings "-register-all".
Open Scope string_scope.

(* ------------------------------------------------------------------ *)
(** ** Python values, exceptions and [json.dumps] *)

(** Python exceptions raised by the code paths we model. *)
Inductive exn :=
| TypeError (msg : string)
| ValueError (msg : string)
| RuntimeError (msg : string)
| TimeoutException                (* httpx.TimeoutException *)
| HTTPStatusError (code : Z)      (* httpx.HTTPStatusError *)
| HTTPError (msg : string)        (* any other httpx.HTTPError *)
| ImportError (msg : string)
| OtherError (msg : string).

Definition exn_str (e : exn) : string :=
  match e with
  | TypeError m | ValueError m | RuntimeError m | HTTPError m | ImportError m | OtherError m => m
  | TimeoutException => "timed out"
  | HTTPStatusError c => "HTTP status " ++ pretty c
  end.

(** [Ok v] : the call returned [v]; [Raise e] : it raised [e]. *)
Inductive result (A : Type) :=
| Ok (v : A)
| Raise (e : exn).
Arguments Ok {A} v.
Arguments Raise {A} e.

(** Python values that can occur in a [StreamMessage.data] payload.
    Numbers (ints and floats) are kept as [Z]: [json.dumps] prints both and
    never fails on them ([allow_nan] is the default).  [PyMsg] is a LangChain
    [BaseMessage]; [PyObj] is any other object, carrying the result of its
    [__str__] ([None] when [__str__] raises). *)
Inductive pyval :=
| PyNone
| PyBool (b : bool)
| PyInt (z : Z)
| PyFloat (z : Z)
| PyStr (s : string)
| PyList (l : list pyval)
| PyTuple (l : list pyval)
| PyDict (kvs : list (pyval * pyval))
| PyMsg (type content : string)
| PyObj (str_repr : option string).

(** JSON documents, as produced by [json.dumps] before rendering. *)
Inductive json :=
| JNull
| JBool (b : bool)
| JNum (z : Z)
| JStr (s : string)
| JArr (l : list json)
| JObj (kvs : list (string * json)).

(** [message_to_dict] from langchain_core:
    [{"type": message.type, "data": message.model_dump()}].  A [PyMsg]
    records only the type and the content of a message, so [data] holds
    these two fields of [model_dump()], in their order there; the other
    fields ([additional_kwargs], [response_metadata], [name], [id],
    [tool_calls], ...) are not represented in this development. *)
Definition message_to_dict (type content : string) : json :=
  JObj [("type", JStr type); ("data", JObj [("content", JStr content); ("type", JStr type)])].

(** The [_default] hook of [StreamMessage.to_json]: BaseMessage objects go
    through [message_to_dict], every other object through [str(obj)]. *)
Definition to_json_default (v : pyval) : result json :=
  match v with
  | PyMsg ty c => Ok (message_to_dict ty c)
  | PyObj (Some s) => Ok (JStr s)
  | PyObj None => Raise (OtherError "__str__ raised")
  | _ => Raise (TypeError "not JSON serializable")
  end.

(** Dict keys: [json.dumps] accepts str, int, float, bool and None keys
    (converting them to strings) and raises [TypeError] on any other key;
    [default] is never applied to keys. *)
Definition dumps_key (k : pyval) : result string :=
  match k with
  | PyStr s => Ok s
  | PyInt z | PyFloat z => Ok (pretty z)
  | PyBool true => Ok "true"
  | PyBool false => Ok "false"
  | PyNone => Ok "null"
  | _ => Raise (TypeError "keys must be str, int, float, bool or None")
  end.

(** [json.dumps(v, default=dflt)] as a conversion to a [json] tree: values
    that are not natively serializable are handed to [dflt]. *)
Fixpoint dumps_with (dflt : pyval -> result json) (v : pyval) : result json :=
  match v with
  | PyNone => Ok JNull
  | PyBool b => Ok (JBool b)
  | PyInt z | PyFloat z => Ok (JNum z)
  | PyStr s => Ok (JStr s)
  | PyList l | PyTuple l =>
      match (fix go (l : list pyval) : result (list json) :=
               match l with
               | [] => Ok []
               | x :: r =>
                   match dumps_with dflt x with
                   | Raise e => Raise e
                   | Ok j => match go r with Raise e => Raise e | Ok js => Ok (j :: js) end
                   end
               end) l with
      | Raise e => Raise e
      | Ok js => Ok (JArr js)
      end
  | PyDict kvs =>
      match (fix go (kvs : list (pyval * pyval)) : result (list (string * json)) :=
               match kvs with
               | [] => Ok []
               | (k, x) :: r =>
                   match dumps_key k with
                   | Raise e => Raise e
                   | Ok ks =>
                       match dumps_with dflt x with
                       | Raise e => Raise e
                       | Ok j =>
                           match go r with Raise e => Raise e | Ok js => Ok ((ks, j) :: js) end
                       end
                   end
               end) kvs with
      | Raise e => Raise e
      | Ok js => Ok (JObj js)
      end
  | PyMsg _ _ | PyObj _ => dflt v
  end.

(** [json.dumps] without a [default]: the standard encoder raises [TypeError]. *)
Definition no_default (v : pyval) : result json := Raise (TypeError "not JSON serializable").

Definition dumps_value (v : pyval) : result json := dumps_with to_json_default v.

(** The double-quote character. *)
Definition dq : string := String "034"%char EmptyString.

(** Rendering of a [json] tree ([ensure_ascii=False]: only the quote and the
    backslash are escaped in this model). *)
Fixpoint escape (s : string) : string :=
  match s with
  | EmptyString => EmptyString
  | String c r =>
      if Ascii.eqb c "034"%char then String "092"%char (String c (escape r))
      else if Ascii.eqb c "092"%char then String c (String c (escape r))
      else String c (escape r)
  end.

Definition quote (s : string) : string := dq ++ escape s ++ dq.

Fixpoint render (j : json) : string :=
  match j with
  | JNull => "null"
  | JBool true => "true"
  | JBool false => "false"
  | JNum z => pretty z
  | JStr s => quote s
  | JArr l =>
      "[" ++ (fix go (l : list json) : string :=
                match l with
                | [] => EmptyString
                | [x] => render x
                | x :: r => render x ++ ", " ++ go r
                end) l ++ "]"
  | JObj kvs =>
      "{" ++ (fix go (kvs : list (string * json)) : string :=
                match kvs with
                | [] => EmptyString
                | [(k, x)] => quote k ++ ": " ++ render x
                | (k, x) :: r => quote k ++ ": " ++ render x ++ ", " ++ go r
                end) kvs ++ "}"
  end.

(* ------------------------------------------------------------------ *)
(** ** Settings (config/settings.py), the fields the modelled code reads *)

Record Settings := {
  redis_stream_enabled : bool;
  stream_ttl_seconds : Z;
  stream_max_length : Z;
  workflow_timeout_seconds : Z;
  rerank_enabled : bool;
  project_search_enabled : bool;
  project_search_api_url : option string;
  project_search_api_username : option string;
  project_search_api_password : option string
}.

(** [AttributeError] raised when code reads an attribute that the object's
    class does not declare (a frozen dataclass, or a pydantic model). *)
Definition attribute_error (cls name : string) : exn :=
  OtherError ("AttributeError: '" ++ cls ++ "' object has no attribute '" ++ name ++ "'").

(** [settings.tavily_api_key]: the dataclass [Settings] declares no such
    field, so the read raises [AttributeError] whatever the environment. *)
Definition settings_tavily_api_key (settings : Settings) : result (option string) :=
  Raise (attribute_error "Settings" "tavily_api_key").

(** Python truthiness of an [Optional[str]]: [None] and the empty string are false. *)
Definition truthy (o : option string) : bool :=
  match o with
  | Some s => negb (String.eqb s EmptyString)
  | None => false
  end.

(* ------------------------------------------------------------------ *)
(** ** [StreamMessage] (infra/redis_pubsub.py) *)

Record StreamMessage := {
  thread_id : string;
  node_name : string;
  message_type : string;
  status : string;
  timestamp : Z;
  data : pyval;
  execution_time_ms : option Z
}.

(** [self.__dict__.copy()] : the dataclass fields in declaration order. *)
Definition msg_dict (m : StreamMessage) : pyval :=
  PyDict [(PyStr "thread_id", PyStr (thread_id m));
          (PyStr "node_name", PyStr (node_name m));
          (PyStr "message_type", PyStr (message_type m));
          (PyStr "status", PyStr (status m));
          (PyStr "timestamp", PyFloat (timestamp m));
          (PyStr "data", data m);
          (PyStr "execution_time_ms",
             match execution_time_ms m with Some t => PyFloat t | None => PyNone end)].

(** The fallback dictionary of the [except] branch; [now] is [time.time()]. *)
Definition fallback_dict (now : Z) (m : StreamMessage) (e : exn) : pyval :=
  PyDict [(PyStr "thread_id", PyStr (thread_id m));
          (PyStr "node_name", PyStr (node_name m));
          (PyStr "message_type", PyStr (message_type m));
          (PyStr "status", PyStr "error");
          (PyStr "error", PyStr ("Serialization failed: " ++ exn_str e));
          (PyStr "timestamp", PyFloat now)].

(** [StreamMessage.to_json], as the JSON document it renders. *)
Definition to_json_value (now : Z) (m : StreamMessage) : result json :=
  match dumps_value (msg_dict m) with
  | Ok j => Ok j
  | Raise e => dumps_with no_default (fallback_dict now m e)
  end.

Definition to_json (now : Z) (m : StreamMessage) : result string :=
  match to_json_value now m with
  | Ok j => Ok (render j)
  | Raise e => Raise e
  end.

(* ------------------------------------------------------------------ *)
(** ** Redis store and [RedisPublisher] *)

(** Redis stream entry ids ["<ms>-<seq>"], ordered lexicographically. *)
Definition sid : Type := (N * N)%type.

Definition sid_ltb (a b : sid) : bool :=
  (N.ltb a.1 b.1 || (N.eqb a.1 b.1 && N.ltb a.2 b.2))%bool.

(** A stream entry: its id and its field/value pairs (decoded strings). *)
Definition stream_entry : Type := (sid * list (string * string))%type.

(** The Redis server as seen by the service: stream keys, key TTLs, the
    messages sent with PUBLISH (channel, payload), and whether the server
    answers at all. *)
Record redis_store := {
  streams : gmap string (list stream_entry);
  ttls : gmap string Z;
  published : list (string * string);
  redis_up : bool
}.

(** Redis PUBLISH; a server that does not answer makes the call raise. *)
Definition redis_publish (st : redis_store) (channel payload : string) : result redis_store :=
  if redis_up st then
    Ok {| streams := streams st; ttls := ttls st;
          published := (published st ++ [(channel, payload)])%list; redis_up := redis_up st |}
  else Raise (OtherError "ConnectionError").

(** [RedisPublisher._channel] *)
Definition channel (thread_id node_name message_type : string) : string :=
  "workflow:" ++ thread_id ++ ":" ++ node_name ++ ":" ++ message_type.

(** [RedisPublisher.publish_message]: PUBLISH the serialized message on the
    channel of the message; any exception is logged and swallowed. *)
Definition publish_message (now : Z) (st : redis_store) (m : StreamMessage) : redis_store :=
  let ch := channel (thread_id m) (node_name m) (message_type m) in
  match to_json now m with
  | Raise _ => st
  | Ok payload =>
      match redis_publish st ch payload with
      | Ok st' => st'
      | Raise _ => st
      end
  end.

(** The key of the durable per-thread log read by the subscription endpoint
    ([stream.py]: [f"workflow:execution:{thread_id}"]). *)
Definition stream_key (thread_id : string) : string := "workflow:execution:" ++ thread_id.

(* ------------------------------------------------------------------ *)
(** ** The WebSocket subscription (api/routes/stream.py) *)

(** Values of the JSON frames sent to the client. *)
Inductive jfield :=
| FId (i : sid)
| FBool (b : bool)
| FStr (s : string).

(** A frame is the Python dict passed to [json.dumps]; a later binding of a
    key overrides an earlier one, as in [{"message_id": ..., **fields}]. *)
Definition frame : Type := list (string * jfield).

Fixpoint frame_lookup (k : string) (f : frame) : option jfield :=
  match f with
  | [] => None
  | (k', v) :: r =>
      match frame_lookup k r with
      | Some v' => Some v'
      | None => if String.eqb k' k then Some v else None
      end
  end.

(** What [websocket.send_text] sends: a JSON frame built by the Stream mode,
    or the raw payload forwarded by the Pub/Sub mode. *)
Inductive sent :=
| SentJson (f : frame)
| SentText (s : string).

Definition fields_frame (fields : list (string * string)) : frame :=
  map (fun kv => (kv.1, FStr kv.2)) fields.

(** [{"message_id": message_id, "is_history": True, **fields}] *)
Definition history_frame (e : stream_entry) : frame :=
  ([("message_id", FId e.1); ("is_history", FBool true)] ++ fields_frame e.2)%list.

(** [{"message_id": message_id, **fields}] *)
Definition new_frame (e : stream_entry) : frame :=
  ([("message_id", FId e.1)] ++ fields_frame e.2)%list.

(** The entries stored under a stream key ([[]] for a missing key). *)
Definition stream_at (st : redis_store) (key : string) : list stream_entry :=
  default [] (streams st !! key).

(** XRANGE key (whole stream, oldest first). *)
Definition xrange (st : redis_store) (key : string) : result (list stream_entry) :=
  if redis_up st then Ok (stream_at st key) else Raise (OtherError "ConnectionError").

(** XREAD {key: last_id} COUNT 10: at most ten entries with an id strictly
    greater than [last_id], oldest first ([block] only bounds the wait). *)
Definition xread (st : redis_store) (key : string) (last_id : sid) : result (list stream_entry) :=
  if redis_up st then Ok (firstn 10 (filter (fun e => sid_ltb last_id e.1 = true) (stream_at st key)))
  else Raise (OtherError "ConnectionError").

(** [last_id = message_id] on every iteration of the loop. *)
Definition last_of (es : list stream_entry) (last_id : sid) : sid :=
  fold_left (fun _ e => e.1) es last_id.

(** [_send_stream_history]: XRANGE on the snapshot [st]; every entry is sent
    with [is_history]; an exception is logged and the loop stops.
    Returns the frames sent and the [last_id] ("0-0" if none). *)
Definition send_stream_history (st : redis_store) (thread_id : string) : list sent * sid :=
  match xrange st (stream_key thread_id) with
  | Ok es => (map (fun e => SentJson (history_frame e)) es, last_of es (0, 0)%N)
  | Raise _ => ([], (0, 0)%N)
  end.

(** [_stream_new_messages]: the [while True] loop, observed over the finite
    sequence [rounds] of store snapshots seen by its successive XREAD calls.
    A failed XREAD is logged, followed by [asyncio.sleep(1)], and retried
    with the same [last_id]. *)
Fixpoint stream_new_messages (thread_id : string) (last_id : sid) (rounds : list redis_store)
  : list sent :=
  match rounds with
  | [] => []
  | st :: rest =>
      match xread st (stream_key thread_id) last_id with
      | Raise _ => stream_new_messages thread_id last_id rest
      | Ok es =>
          (map (fun e => SentJson (new_frame e)) es
             ++ stream_new_messages thread_id (last_of es last_id) rest)%list
      end
  end.

(** [_stream_pubsub_fallback]: forwards the data of every [pmessage]
    received on the pattern [workflow:{thread_id}:*]; [msgs] are the
    (type, data) pairs yielded by [pubsub.listen()]. *)
Definition stream_pubsub_fallback (msgs : list (string * string)) : list sent :=
  map (fun m => SentText m.2) (filter (fun m => m.1 = "pmessage") msgs).

(** [websocket_stream].  [last_id] is the query parameter, [None] when absent
    or empty (Python truthiness of [if last_id:]); [hist] is the store seen
    by XRANGE, [rounds] the stores seen by the XREAD calls, [pubsub_msgs]
    what the Pub/Sub subscription receives. *)
Definition websocket_stream (settings : Settings) (thread_id : string) (last_id : option sid)
    (hist : redis_store) (rounds : list redis_store) (pubsub_msgs : list (string * string))
  : list sent :=
  if redis_stream_enabled settings then
    match last_id with
    | Some x => stream_new_messages thread_id x rounds
    | None =>
        let '(h, l) := send_stream_history hist thread_id in
        (h ++ stream_new_messages thread_id l rounds)%list
    end
  else stream_pubsub_fallback pubsub_msgs.

(* ------------------------------------------------------------------ *)
(** ** The streaming driver [_stream_workflow_to_redis] (api/routes/chat.py) *)

(** [_normalize_update]: LangChain messages become [message_to_dict]
    dictionaries, containers are normalized element-wise. *)
Fixpoint normalize_update (v : pyval) : pyval :=
  match v with
  | PyMsg ty c =>
      PyDict [(PyStr "type", PyStr ty);
              (PyStr "data", PyDict [(PyStr "content", PyStr c); (PyStr "type", PyStr ty)])]
  | PyDict kvs => PyDict (map (fun kv => (kv.1, normalize_update kv.2)) kvs)
  | PyList l => PyList (map normalize_update l)
  | PyTuple l => PyTuple (map normalize_update l)
  | _ => v
  end.

(** The chunks yielded by [graph.astream(..., stream_mode=["updates",
    "messages", "custom"])]. *)
Inductive chunk :=
| ChMessages (node : string) (content : string) (metadata : pyval)
    (* ("messages", (message_chunk, metadata)) from node [langgraph_node] *)
| ChUpdates (updates : list (string * pyval))
    (* ("updates", {node_name: update}) *)
| ChCustom (payload : pyval).
    (* ("custom", chunk) *)

(** [RedisPublisher.publish_node_output] builds this message. *)
Definition node_output (now : Z) (thread_id node_name : string) (data : pyval)
    (status message_type : string) (execution_time_ms : option Z) : StreamMessage :=
  {| thread_id := thread_id; node_name := node_name; message_type := message_type;
     status := status; timestamp := now; data := data; execution_time_ms := execution_time_ms |}.

(** The messages published while handling one chunk. *)
Definition chunk_events (now elapsed_ms : Z) (thread_id : string) (c : chunk) : list StreamMessage :=
  match c with
  | ChMessages node content metadata =>
      if bool_decide (node = "query_or_respond" \/ node = "generate") then
        if String.eqb content EmptyString then []
        else [node_output now thread_id node
                (PyDict [(PyStr "token", PyStr content);
                         (PyStr "chunk", normalize_update (PyMsg "AIMessageChunk" content));
                         (PyStr "metadata", normalize_update metadata)])
                "streaming" "token" None]
      else []
  | ChUpdates ups =>
      map (fun nu => node_output now thread_id nu.1 (normalize_update nu.2)
                       "completed" "output" (Some elapsed_ms)) ups
  | ChCustom payload =>
      [{| thread_id := thread_id; node_name := "custom"; message_type := "custom";
          status := "info"; timestamp := now; data := payload; execution_time_ms := None |}]
  end.

(** [_process_stream], over the chunks produced before it stops. *)
Definition process_stream (now elapsed_ms : Z) (thread_id : string) (cs : list chunk)
  : list StreamMessage :=
  concat (map (chunk_events now elapsed_ms thread_id) cs).

(** [node_times[node_name] = elapsed_ms] for every node update, in order. *)
Fixpoint dict_set (k : string) (v : Z) (d : list (string * Z)) : list (string * Z) :=
  match d with
  | [] => [(k, v)]
  | (k', v') :: r => if String.eqb k k' then (k', v) :: r else (k', v') :: dict_set k v r
  end.

Definition node_times (elapsed_ms : Z) (cs : list chunk) : list (string * Z) :=
  fold_left (fun d c =>
               match c with
               | ChUpdates ups => fold_left (fun d nu => dict_set nu.1 elapsed_ms d) ups d
               | _ => d
               end) cs [].

(** How [asyncio.wait_for(_process_stream(), timeout=timeout_seconds)] ends. *)
Inductive turn_outcome :=
| Finished                 (* the stream is exhausted *)
| CancelledByCaller        (* asyncio.CancelledError *)
| TimedOut                 (* asyncio.TimeoutError: the budget is exceeded *)
| Failed (e : exn).        (* any other exception of the workflow *)

(** [RedisPublisher.publish_workflow_complete] *)
Definition workflow_complete (now : Z) (thread_id : string) (data : pyval) (total_ms : Z)
  : StreamMessage :=
  {| thread_id := thread_id; node_name := "workflow"; message_type := "complete";
     status := "completed"; timestamp := now; data := data; execution_time_ms := Some total_ms |}.

(** [RedisPublisher.publish_workflow_error]: [data={"error": error, **data}] *)
Definition workflow_error (now : Z) (thread_id error : string) (extra : list (pyval * pyval))
  : StreamMessage :=
  {| thread_id := thread_id; node_name := "workflow"; message_type := "error";
     status := "failed"; timestamp := now;
     data := PyDict ((PyStr "error", PyStr error) :: extra); execution_time_ms := None |}.

(** [_stream_workflow_to_redis]: every message handed to [publish_message],
    in order.  [cs] are the chunks processed before the run ends with
    [outcome]; [now], [elapsed_ms] and [total_ms] stand for the clock
    readings. *)
Definition stream_workflow_to_redis (settings : Settings) (now elapsed_ms total_ms : Z)
    (thread_id : string) (cs : list chunk) (outcome : turn_outcome) : list StreamMessage :=
  let timeout_seconds := workflow_timeout_seconds settings in
  (process_stream now elapsed_ms thread_id cs ++
   match outcome with
   | Finished =>
       [workflow_complete now thread_id
          (PyDict [(PyStr "node_times",
                    PyDict (map (fun kv => (PyStr kv.1, PyFloat kv.2)) (node_times elapsed_ms cs)));
                   (PyStr "total_ms", PyFloat total_ms)]) total_ms]
   | CancelledByCaller => []
   | TimedOut =>
       [workflow_error now thread_id
          ("Workflow execution exceeded " ++ pretty timeout_seconds ++ "s timeout")
          [(PyStr "error_type", PyStr "timeout"); (PyStr "timeout_seconds", PyInt timeout_seconds)]]
   | Failed e =>
       [workflow_error now thread_id (exn_str e) [(PyStr "error_type", PyStr "execution_error")]]
   end)%list.

(** Terminal events of a turn: [complete] or [error] messages. *)
Definition is_terminal (m : StreamMessage) : bool :=
  String.eqb (message_type m) "complete" || String.eqb (message_type m) "error".

Definition terminal_events (ms : list StreamMessage) : list StreamMessage :=
  filter (fun m => is_terminal m = true) ms.

(* ------------------------------------------------------------------ *)
(** ** [ProjectSearchClient] (tools/project_search.py) *)

(** Python truthiness. *)
Definition py_truthy (v : pyval) : bool :=
  match v with
  | PyNone => false
  | PyBool b => b
  | PyInt z | PyFloat z => negb (Z.eqb z 0)
  | PyStr s => negb (String.eqb s EmptyString)
  | PyList l | PyTuple l => negb (bool_decide (l = []))
  | PyDict kvs => negb (bool_decide (kvs = []))
  | PyMsg _ _ | PyObj _ => true
  end.

(** [d.get(k)] / [d[k]] on a decoded JSON object (the last duplicate wins). *)
Definition py_get (k : string) (v : pyval) : option pyval :=
  match v with
  | PyDict kvs =>
      fold_left (fun acc kv => match kv.1 with
                               | PyStr k' => if String.eqb k' k then Some kv.2 else acc
                               | _ => acc
                               end) kvs None
  | _ => None
  end.

(** The HTTP requests the client sends. *)
Inductive request :=
| PostToken                                  (* POST {api_url}/api/auth/token *)
| GetSearch (query : string) (limit : Z) (bearer : pyval).
                                             (* GET {api_url}/api/projects/search *)

(** What the network answers: a response (status code, decoded JSON body),
    an [httpx.TimeoutException], or another transport error. *)
Inductive http_answer :=
| HResp (code : Z) (body : pyval)
| HTimeout
| HNetError (msg : string).

(** Client state: the cached token ([self.token]), and the log of the
    requests sent with the answers they got.  The network is an oracle
    [env] from the request number to its answer. *)
Record client_state := {
  token : pyval;
  http_log : list (request * http_answer)
}.

(** The client monad: state passing with Python exceptions; the state is
    kept when an exception is raised. *)
Definition CM (A : Type) : Type := client_state -> result A * client_state.

Definition cret {A} (a : A) : CM A := fun st => (Ok a, st).
Definition craise {A} (e : exn) : CM A := fun st => (Raise e, st).
Definition cbind {A B} (m : CM A) (k : A -> CM B) : CM B :=
  fun st => match m st with
            | (Ok a, st') => k a st'
            | (Raise e, st') => (Raise e, st')
            end.
(** [try: m except e: h e] *)
Definition ctry {A} (m : CM A) (h : exn -> CM A) : CM A :=
  fun st => match m st with
            | (Raise e, st') => h e st'
            | r => r
            end.

Notation "x <- m ;; k" := (cbind m (fun x => k)) (at level 100, m at next level, right associativity).
Notation "m ;;; k" := (cbind m (fun _ => k)) (at level 100, right associativity).

Section Client.
(** The network. *)
Variable env : nat -> http_answer.

(** Send a request; the answer is the [env] entry for its position. *)
Definition http (rq : request) : CM http_answer :=
  fun st => let a := env (length (http_log st)) in
            (Ok a, {| token := token st; http_log := (http_log st ++ [(rq, a)])%list |}).

Definition set_token (t : pyval) : CM unit :=
  fun st => (Ok tt, {| token := t; http_log := http_log st |}).

Definition get_token_field : CM pyval := fun st => (Ok (token st), st).

(** [response.raise_for_status(); return response.json()]: non-2xx codes
    raise [HTTPStatusError]; transport failures raise as httpx does. *)
Definition checked (a : http_answer) : CM pyval :=
  match a with
  | HResp code body =>
      if andb (Z.leb 200 code) (Z.ltb code 300) then cret body
      else craise (HTTPStatusError code)
  | HTimeout => craise TimeoutException
  | HNetError m => craise (HTTPError m)
  end.

(** [_get_token]: the cached token if truthy, else POST and cache
    [data["access_token"]] ([KeyError] when absent). *)
Definition get_token : CM pyval :=
  t <- get_token_field ;;
  if py_truthy t then cret t
  else
    a <- http PostToken ;;
    data <- checked a ;;
    match py_get "access_token" data with
    | Some t' => set_token t' ;;; cret t'
    | None => craise (OtherError "KeyError: access_token")
    end.

Definition search_once (query : string) (limit : Z) (tok : pyval) : CM pyval :=
  a <- http (GetSearch query limit tok) ;; checked a.

(** [ProjectSearchClient.search]: on a 401, clear the token, reacquire it
    and retry once; exceptions raised inside the handler propagate. *)
Definition search (query : string) (limit : Z) : CM pyval :=
  tok <- get_token ;;
  ctry (search_once query limit tok)
    (fun e =>
       match e with
       | HTTPStatusError code =>
           if Z.eqb code 401 then
             set_token PyNone ;;;
             tok' <- get_token ;;
             search_once query limit tok'
           else craise e
       | _ => craise e
       end).
End Client.

(* ------------------------------------------------------------------ *)
(** ** Tool capabilities (tools/project_search.py, retrieval.py, web_search.py) *)

Definition nl : string := String "010"%char EmptyString.

(** [str(v)] for the values a decoded JSON body can hold (containers are
    printed by a placeholder: only their presence matters below). *)
Definition py_str (v : pyval) : string :=
  match v with
  | PyNone => "None"
  | PyBool true => "True"
  | PyBool false => "False"
  | PyInt z | PyFloat z => pretty z
  | PyStr s => s
  | PyMsg _ c => c
  | PyObj (Some s) => s
  | _ => "<object>"
  end.

(** [d.get(k, default)] on a project dict; [AttributeError] on a non-dict. *)
Definition get_or (k : string) (dflt : pyval) (v : pyval) : result pyval :=
  match v with
  | PyDict _ => Ok (default dflt (py_get k v))
  | _ => Raise (OtherError "AttributeError: get")
  end.

Fixpoint join (sep : string) (l : list string) : string :=
  match l with
  | [] => EmptyString
  | [x] => x
  | x :: r => x ++ sep ++ join sep r
  end.

(** Python's [str] counts code points, while a Rocq [string] holds the
    UTF-8 bytes: a continuation byte [10xxxxxx] does not start a code point. *)
Definition utf8_cont (c : ascii) : bool := N.eqb (N.land (N_of_ascii c) 192) 128.

(** [len(s)] on a [str]. *)
Fixpoint py_len (s : string) : nat :=
  match s with
  | EmptyString => 0
  | String c r => (if utf8_cont c then 0 else 1) + py_len r
  end.

(** [s[:n]] on a [str]: the bytes before the start of code point [n]. *)
Fixpoint py_take (n : nat) (s : string) : string :=
  match s with
  | EmptyString => EmptyString
  | String c r =>
      if utf8_cont c then String c (py_take n r)
      else match n with
           | 0 => EmptyString
           | S n' => String c (py_take n' r)
           end
  end.

(** [tech = tech[:200] + "..." if len(tech) > 200 else tech], then the
    f-string [f"{tech}"].  A list or tuple longer than 200 fails at the
    concatenation ([list + str]), a dict longer than 200 at the slice, and a
    number or bool at [len]; shorter containers are printed as they are. *)
Definition truncate_tech (tech : pyval) : result string :=
  match tech with
  | PyStr t => Ok (if Nat.ltb 200 (py_len t) then py_take 200 t ++ "..." else t)
  | PyList l | PyTuple l =>
      if Nat.ltb 200 (length l) then Raise (TypeError "can only concatenate list (not str) to list")
      else Ok (py_str tech)
  | PyDict kvs =>
      if Nat.ltb 200 (length kvs) then Raise (OtherError "dict[:200]: slice is not a key")
      else Ok (py_str tech)
  | _ => Raise (TypeError "object has no len()")
  end.

(** [[t.get("name") for t in team if t.get("name")]] *)
Fixpoint team_names (team : list pyval) : result (list pyval) :=
  match team with
  | [] => Ok []
  | t :: r =>
      match get_or "name" PyNone t, team_names r with
      | Raise e, _ | _, Raise e => Raise e
      | Ok n, Ok ns => Ok (if py_truthy n then n :: ns else ns)
      end
  end.

(** The items of [', '.join(names)]: [TypeError] on an item that is not a [str]. *)
Fixpoint join_items (names : list pyval) : result (list string) :=
  match names with
  | [] => Ok []
  | PyStr n :: r =>
      match join_items r with
      | Ok ns => Ok (n :: ns)
      | Raise e => Raise e
      end
  | _ :: _ => Raise (TypeError "sequence item: expected str instance")
  end.

(** [_format_project] *)
Definition format_project (p : pyval) : result string :=
  match get_or "project_name" (PyStr "N/A") p, get_or "company_name" PyNone p,
        get_or "industry" PyNone p, get_or "core_technology" PyNone p,
        get_or "core_team" PyNone p with
  | Ok name, Ok company, Ok industry, Ok tech, Ok team =>
      let l1 := ["**" ++ py_str name ++ "**"] in
      let l2 := if py_truthy company then ["- 公司：" ++ py_str company] else [] in
      let l3 := if py_truthy industry then ["- 行业：" ++ py_str industry] else [] in
      match (if py_truthy tech then
               match truncate_tech tech with
               | Ok t => Ok ["- 核心技术：" ++ t]
               | Raise e => Raise e
               end
             else Ok []) with
      | Raise e => Raise e
      | Ok l4 =>
          match team with
          | PyList ((_ :: _) as ts) =>
              match team_names ts with
              | Raise e => Raise e
              | Ok [] => Ok (join nl (l1 ++ l2 ++ l3 ++ l4)%list)
              | Ok ns =>
                  match join_items ns with
                  | Raise e => Raise e
                  | Ok ss => Ok (join nl (l1 ++ l2 ++ l3 ++ l4 ++ [String.append "- 团队：" (join ", " ss)])%list)
                  end
              end
          | _ => Ok (join nl (l1 ++ l2 ++ l3 ++ l4)%list)
          end
      end
  | _, _, _, _, _ => Raise (OtherError "AttributeError: get")
  end.

(** [RESULT_LIMIT] *)
Definition RESULT_LIMIT : Z := 1.

(** The body of the [try] block of [_search_projects_impl], run on a fresh
    [ProjectSearchClient] (no cached token). *)
Definition search_projects_body (env : nat -> http_answer) (query : string) : result string :=
  match fst (search env query RESULT_LIMIT {| token := PyNone; http_log := [] |}) with
  | Raise e => Raise e
  | Ok res =>
      match get_or "items" (PyList []) res with
      | Raise e => Raise e
      | Ok projects =>
          if negb (py_truthy projects) then
            Ok ("未找到与 '" ++ query ++ "' 相关的项目")
          else
            match projects with
            | PyList (p :: _) | PyTuple (p :: _) =>
                match get_or "total" (PyInt 1) res, format_project p with
                | Ok total, Ok fp => Ok ("找到 " ++ py_str total ++ " 个相关项目：" ++ nl ++ nl ++ fp)
                | Raise e, _ | _, Raise e => Raise e
                end
            | _ => Raise (OtherError "TypeError/KeyError: projects[0]")
            end
      end
  end.

(** [_search_projects_impl]: configuration checks, then the [try] block
    with its three [except] clauses ([httpx.TimeoutException] first, then
    any [httpx.HTTPError], then any [Exception]). *)
Definition search_projects_impl (settings : Settings) (env : nat -> http_answer) (query : string)
  : result string :=
  if negb (project_search_enabled settings) then Ok "项目搜索功能未启用"
  else if negb (truthy (project_search_api_url settings)) then Ok "项目搜索服务未配置"
  else if negb (truthy (project_search_api_username settings))
          || negb (truthy (project_search_api_password settings)) then
    Ok "项目搜索服务认证信息未配置"
  else
    match search_projects_body env query with
    | Ok s => Ok s
    | Raise TimeoutException => Ok "项目搜索服务响应超时"
    | Raise (HTTPStatusError _) | Raise (HTTPError _) => Ok "项目搜索服务暂时不可用"
    | Raise _ => Ok "项目搜索失败，请稍后重试"
    end.

(** What a tool returns: plain content (a [@tool] returning [str]), or
    [response_format="content_and_artifact"] pairs. *)
Inductive tool_output (Art : Type) :=
| Content (s : string)
| ContentArtifact (s : string) (artifacts : list Art).
Arguments Content {Art} s.
Arguments ContentArtifact {Art} s artifacts.

(** [search_projects] (the [@tool] wrapper). *)
Definition search_projects (settings : Settings) (env : nat -> http_answer) (query : string)
  : result (tool_output pyval) :=
  match search_projects_impl settings env query with
  | Ok s => Ok (Content s)
  | Raise e => Raise e
  end.

(** A LangChain [Document]: the printed metadata, the page content and the
    already formatted relevance score ([f"{score:.4f}"]) when present. *)
Record doc := {
  doc_source : string;
  page_content : string;
  relevance_score : option string
}.

(** [_serialize_documents(documents, include_scores)] *)
Definition serialize_documents (docs : list doc) (include_scores : bool) : string :=
  join (nl ++ nl)
    (map (fun d => "Source: " ++ doc_source d ++ nl ++ "Content: " ++ page_content d ++
                   match include_scores, relevance_score d with
                   | true, Some sc => nl ++ "Relevance Score: " ++ sc
                   | _, _ => EmptyString
                   end) docs).

(** [_rerank_documents]: [None] when disabled or no documents.  [compress]
    is the outcome of the [try] block (importing [DashScopeRerank], building
    the re-ranker, [compress_documents]): an [ImportError] there is re-raised
    as a new [ImportError], any other exception as [RuntimeError]. *)
Definition rerank_documents (settings : Settings) (docs : list doc)
    (compress : result (list doc)) : result (option (list doc)) :=
  if negb (rerank_enabled settings) || bool_decide (docs = []) then Ok None
  else match compress with
       | Ok ds => Ok (Some ds)
       | Raise (ImportError _) =>
           Raise (ImportError "Could not import DashScopeRerank. Please install it with `pip install dashscope`.")
       | Raise e => Raise (RuntimeError ("Rerank failed: " ++ exn_str e))
       end.

(** [retrieve_context]: [similarity_search] is the vector-store answer,
    [compress] the re-ranker answer.  No exception is caught. *)
Definition retrieve_context (settings : Settings) (similarity_search compress : result (list doc))
  : result (tool_output doc) :=
  match similarity_search with
  | Raise e => Raise e
  | Ok retrieved =>
      match (if rerank_enabled settings && negb (bool_decide (retrieved = [])) then
               match rerank_documents settings retrieved compress with
               | Raise e => Raise e
               | Ok (Some ((_ :: _) as rr)) => Ok rr
               | Ok _ => Ok retrieved
               end
             else Ok retrieved) with
      | Raise e => Raise e
      | Ok docs => Ok (ContentArtifact (serialize_documents docs true) docs)
      end
  end.

(** The answer of [TavilySearchResults.invoke]: a string, or a list of
    result objects (dicts with optional title/url/content, or others). *)
Inductive tavily_item :=
| TavDict (title url content : option string)
| TavOther (repr : string).

Inductive tavily_answer :=
| TavStr (s : string)
| TavList (items : list tavily_item).

Fixpoint format_results (i : nat) (items : list tavily_item) : list string :=
  match items with
  | [] => []
  | TavDict t u c :: r =>
      ("[" ++ pretty (N.of_nat i) ++ "] " ++ default "No title" t ++ nl ++
       "URL: " ++ default "No URL" u ++ nl ++ "Content: " ++ default "No content" c)
        :: format_results (S i) r
  | TavOther s :: r => s :: format_results (S i) r
  end.

(** [_get_tavily_search_tool()]: [None] when the key is not set, otherwise
    the tool (represented by its key).  It reads [settings.tavily_api_key]. *)
Definition get_tavily_search_tool (settings : Settings) : result (option string) :=
  match settings_tavily_api_key settings with
  | Raise e => Raise e
  | Ok key => Ok (if truthy key then key else None)
  end.

(** [web_search]: [invoke] is what [tavily_tool.invoke] does.  The tool is
    obtained before the [try] block, so an exception raised by
    [_get_tavily_search_tool] leaves the function. *)
Definition web_search (settings : Settings) (invoke : result tavily_answer)
  : result (tool_output tavily_item) :=
  match get_tavily_search_tool settings with
  | Raise e => Raise e
  | Ok None =>
      Ok (ContentArtifact "Web search is not configured. Please set TAVILY_API_KEY in environment variables." [])
  | Ok (Some _) =>
      match invoke with
      | Raise e => Ok (ContentArtifact ("Web search failed: " ++ exn_str e) [])
      | Ok (TavStr s) => Ok (ContentArtifact s [])
      | Ok (TavList items) => Ok (ContentArtifact (join (nl ++ nl) (format_results 1 items)) items)
      end
  end.

(* ------------------------------------------------------------------ *)
(** ** The workflow graph (agent/graph.py) *)

(** The tools the graph can bind (their [@tool] names). *)
Inductive tool :=
| RetrieveContextTool   (* "retrieve_context" *)
| SearchProjectsTool    (* "search_projects" *)
| WebSearchTool.        (* "web_search" *)

Record tool_call := {
  call_name : string;
  call_args : string
}.

(** LangChain messages, by class. *)
Inductive message :=
| HumanMessage (content : string)
| AIMessage (content : string) (tool_calls : list tool_call)
| ToolMessage (name content : string)
| SystemMessage (content : string).

(** [prompts.SYSTEM_PROMPT.format(time=...)]; the instruction text itself
    (a configuration asset) is kept abstract as [SYSTEM_PROMPT_HEAD]. *)
Definition SYSTEM_PROMPT_HEAD : string := "You are a helpful AI assistant with access to tools.".
Definition system_prompt (time : string) : string :=
  SYSTEM_PROMPT_HEAD ++ nl ++ nl ++ "Current time: " ++ time.

(** [prompts.GENERATE_ANSWER_PROMPT.format(question=..., documents=...)];
    the instruction text before the question is [GENERATE_ANSWER_PROMPT_HEAD]. *)
Definition GENERATE_ANSWER_PROMPT_HEAD : string :=
  "You are an assistant for question-answering tasks related to company/project documents.".
Definition generate_answer_prompt (question documents : string) : string :=
  GENERATE_ANSWER_PROMPT_HEAD ++ nl ++ nl ++ "Question: " ++ question ++ nl ++ nl ++
  "Retrieved documents:" ++ nl ++ documents ++ nl ++ nl ++ "Answer:".

(** [config["configurable"]] as the dict built by the endpoints. *)
Definition configurable : Type := list (string * pyval).

Definition cfg_get (k : string) (c : configurable) : option pyval :=
  fold_left (fun acc kv => if String.eqb kv.1 k then Some kv.2 else acc) c None.

(** [config["configurable"].get("chat_model")], as a model name. *)
Definition cfg_chat_model (c : configurable) : option string :=
  match cfg_get "chat_model" c with
  | Some (PyStr m) => Some m
  | _ => None
  end.

(** One model invocation: the model name override, the tools bound with
    [bind_tools] ([[]] for a plain [llm.ainvoke]) and the input messages. *)
Record llm_call := {
  call_model : option string;
  call_tools : list tool;
  call_input : list message
}.

(** [a or b] on strings. *)
Definition str_or (a b : string) : string := if String.eqb a EmptyString then b else a.

(** [_extract_user_question]: the content of the latest [HumanMessage]. *)
Definition extract_user_question (msgs : list message) : string :=
  fold_left (fun acc m => match m with HumanMessage c => c | _ => acc end) msgs EmptyString.

(** [_extract_retrieved_context]: the content of the latest [ToolMessage]. *)
Definition extract_retrieved_context (msgs : list message) : string :=
  fold_left (fun acc m => match m with ToolMessage _ c => c | _ => acc end) msgs EmptyString.

(** [langgraph.prebuilt.tools_condition]: route to ["tools"] when the last
    message carries tool calls, else to [END]. *)
Definition tools_condition (msgs : list message) : bool :=
  match last msgs with
  | Some (AIMessage _ (_ :: _)) => true
  | _ => false
  end.

Section Workflow.
Variable settings : Settings.
(** [_now_iso()] *)
Variable now_iso : string.
(** The chat model: its answer (content, tool calls) to a call. *)
Variable llm : llm_call -> string * list tool_call.
(** [ToolNode]: the content of the [ToolMessage] produced for a call
    (tool errors are turned into content by [ToolNode] itself). *)
Variable run_tool : tool_call -> string.

Definition llm_answer (c : llm_call) : message :=
  let '(content, tcs) := llm c in AIMessage content tcs.

(** The tools bound in [query_or_respond]. *)
Definition decide_tools : list tool :=
  (RetrieveContextTool :: (if project_search_enabled settings then [SearchProjectsTool] else []))%list.

(** [query_or_respond]: the model call it makes. *)
Definition query_or_respond_call (cfg : configurable) (msgs : list message) : llm_call :=
  {| call_model := cfg_chat_model cfg;
     call_tools := decide_tools;
     call_input := SystemMessage (system_prompt now_iso) :: msgs |}.

(** The [ToolNode] of the graph: one [ToolMessage] per tool call of the
    last AI message, in the order of the calls. *)
Definition tools_node (msgs : list message) : list message :=
  match last msgs with
  | Some (AIMessage _ tcs) => map (fun tc => ToolMessage (call_name tc) (run_tool tc)) tcs
  | _ => []
  end.

(** [generate]: the model call it makes. *)
Definition generate_call (cfg : configurable) (msgs : list message) : llm_call :=
  let question := extract_user_question msgs in
  let documents := extract_retrieved_context msgs in
  {| call_model := cfg_chat_model cfg;
     call_tools := [];
     call_input := [HumanMessage (generate_answer_prompt
                                    (str_or question "No question provided.")
                                    (str_or documents "No supporting documents were retrieved."))] |}.

(** One turn of the compiled graph: entry [query_or_respond], conditional
    edge [tools_condition], then [tools -> generate -> END].  Returns the
    final message list and the model calls made, in order. *)
Definition run_turn (cfg : configurable) (history : list message) (user : string)
  : list message * list llm_call :=
  let msgs0 := (history ++ [HumanMessage user])%list in
  let c1 := query_or_respond_call cfg msgs0 in
  let msgs1 := (msgs0 ++ [llm_answer c1])%list in
  if tools_condition msgs1 then
    let msgs2 := (msgs1 ++ tools_node msgs1)%list in
    let c2 := generate_call cfg msgs2 in
    ((msgs2 ++ [llm_answer c2])%list, [c1; c2])
  else (msgs1, [c1]).
End Workflow.

(** The request model [ChatRequest] (api/schemas.py), with its declared fields. *)
Record ChatRequest := {
  req_thread_id : string;
  req_user_id : option string;
  req_message : string;
  req_chat_model : option string
}.

(** An uploaded document, as the endpoint reads it ([doc.filename],
    [doc.format], [doc.markdown_content]). *)
Record UploadedDocument := {
  filename : string;
  format : string;
  markdown_content : string
}.

(** [req.enable_websearch] and [req.documents]: [ChatRequest] declares
    neither field, and reading an undeclared attribute of a pydantic model
    raises [AttributeError]. *)
Definition req_enable_websearch (req : ChatRequest) : result pyval :=
  Raise (attribute_error "ChatRequest" "enable_websearch").

Definition req_documents (req : ChatRequest) : result (list UploadedDocument) :=
  Raise (attribute_error "ChatRequest" "documents").

(** The [<document ...>] markers of the uploaded documents, from index [idx]. *)
Fixpoint document_markers (idx : nat) (docs : list UploadedDocument) : string :=
  match docs with
  | [] => EmptyString
  | d :: r =>
      "<document index=" ++ dq ++ pretty (N.of_nat idx) ++ dq ++ " filename=" ++ dq ++ filename d ++ dq
      ++ " format=" ++ dq ++ format d ++ dq ++ ">" ++ nl ++ markdown_content d ++ nl ++ "</document>" ++ nl
      ++ document_markers (S idx) r
  end.

(** [chat_stream_endpoint]: on success, the [config["configurable"]] and the
    user message content handed to the background task
    [_stream_workflow_to_redis]; an exception becomes the HTTP error answer
    and no task is scheduled. *)
Definition chat_stream_endpoint (req : ChatRequest) : result (configurable * string) :=
  let cfg := ([("thread_id", PyStr (req_thread_id req))]
              ++ (if truthy (req_user_id req)
                  then [("user_id", PyStr (default EmptyString (req_user_id req)))] else [])
              ++ (if truthy (req_chat_model req)
                  then [("chat_model", PyStr (default EmptyString (req_chat_model req)))] else []))%list in
  match req_enable_websearch req with
  | Raise e => Raise e
  | Ok ws =>
      let cfg := if py_truthy ws then (cfg ++ [("enable_websearch", ws)])%list else cfg in
      match req_documents req with
      | Raise e => Raise e
      | Ok docs =>
          let content := if bool_decide (docs = []) then req_message req
                         else req_message req ++ nl ++ nl ++ "<uploaded_documents>" ++ nl
                              ++ document_markers 0 docs ++ "</uploaded_documents>" in
          Ok (cfg, content)
      end
  end.

(* ------------------------------------------------------------------ *)
(** ** Thread deletion ([delete_thread], api/routes/chat.py) *)

(** A row of a LangGraph checkpoint table: its [thread_id] column and the
    rest of the row. *)
Record row := {
  row_thread_id : string;
  row_rest : string
}.

(** The checkpoint tables of the Postgres database, and whether the
    connection pool can serve a connection. *)
Record checkpoint_db := {
  checkpoint_writes : list row;
  checkpoint_blobs : list row;
  checkpoints : list row;
  checkpoint_migrations : list Z;
  db_up : bool
}.

(** [DELETE FROM <table> WHERE thread_id = %s]: the remaining rows and
    [cur.rowcount]. *)
Definition delete_where (t : string) (tbl : list row) : list row * nat :=
  let kept := filter (fun r => row_thread_id r <> t) tbl in
  (kept, length tbl - length kept).

(** The HTTP answer of the endpoint. *)
Inductive http_status :=
| NoContent                      (* 204 *)
| InternalServerError (detail : string).  (* HTTPException 500 *)

(** [delete_thread]: three DELETE statements in one transaction, committed
    at the end; returns the answer, the database afterwards and the three
    row counts (writes, blobs, checkpoints).  A failing connection raises
    before any statement and leaves the database untouched. *)
Definition delete_thread (db : checkpoint_db) (thread_id : string)
  : http_status * checkpoint_db * (nat * nat * nat) :=
  if db_up db then
    let '(w, writes_deleted) := delete_where thread_id (checkpoint_writes db) in
    let '(b, blobs_deleted) := delete_where thread_id (checkpoint_blobs db) in
    let '(c, checkpoints_deleted) := delete_where thread_id (checkpoints db) in
    (NoContent,
     {| checkpoint_writes := w; checkpoint_blobs := b; checkpoints := c;
        checkpoint_migrations := checkpoint_migrations db; db_up := db_up db |},
     (writes_deleted, blobs_deleted, checkpoints_deleted))
  else
    (InternalServerError "Failed to delete thread: connection failed", db, (0, 0, 0)).

(** All rows of the three per-thread tables. *)
Definition all_thread_rows (db : checkpoint_db) : list row :=
  (checkpoint_writes db ++ checkpoint_blobs db ++ checkpoints db)%list.

(* ------------------------------------------------------------------ *)
(** ** Induction on payload values and the loops of [json.dumps] *)

(** Structural induction on [pyval] through its nested lists and dicts. *)
Section pyval_ind'.
Variable P : pyval -> Prop.
Hypothesis HNone : P PyNone.
Hypothesis HBool : forall b, P (PyBool b).
Hypothesis HInt : forall z, P (PyInt z).
Hypothesis HFloat : forall z, P (PyFloat z).
Hypothesis HStr : forall s, P (PyStr s).
Hypothesis HList : forall l, Forall P l -> P (PyList l).
Hypothesis HTuple : forall l, Forall P l -> P (PyTuple l).
Hypothesis HDict : forall kvs, Forall (fun kv => P kv.2) kvs -> P (PyDict kvs).
Hypothesis HMsg : forall t c, P (PyMsg t c).
Hypothesis HObj : forall o, P (PyObj o).

Fixpoint pyval_ind' (v : pyval) : P v :=
  match v with
  | PyNone => HNone
  | PyBool b => HBool b
  | PyInt z => HInt z
  | PyFloat z => HFloat z
  | PyStr s => HStr s
  | PyList l =>
      HList l ((fix go (l : list pyval) : Forall P l :=
                  match l with
                  | [] => @List.Forall_nil _ P
                  | x :: r => @List.Forall_cons _ P x r (pyval_ind' x) (go r)
                  end) l)
  | PyTuple l =>
      HTuple l ((fix go (l : list pyval) : Forall P l :=
                   match l with
                   | [] => @List.Forall_nil _ P
                   | x :: r => @List.Forall_cons _ P x r (pyval_ind' x) (go r)
                   end) l)
  | PyDict kvs =>
      HDict kvs ((fix go (kvs : list (pyval * pyval)) : Forall (fun kv => P kv.2) kvs :=
                    match kvs with
                    | [] => @List.Forall_nil _ (fun kv => P kv.2)
                    | (k, x) :: r => @List.Forall_cons _ (fun kv => P kv.2) (k, x) r (pyval_ind' x) (go r)
                    end) kvs)
  | PyMsg t c => HMsg t c
  | PyObj o => HObj o
  end.
End pyval_ind'.

(** The element loop of [dumps_with] on lists and tuples, named. *)
Fixpoint dumps_list (dflt : pyval -> result json) (l : list pyval) : result (list json) :=
  match l with
  | [] => Ok []
  | x :: r =>
      match dumps_with dflt x with
      | Raise e => Raise e
      | Ok j => match dumps_list dflt r with Raise e => Raise e | Ok js => Ok (j :: js) end
      end
  end.

(** The item loop of [dumps_with] on dicts, named. *)
Fixpoint dumps_dict (dflt : pyval -> result json) (kvs : list (pyval * pyval))
  : result (list (string * json)) :=
  match kvs with
  | [] => Ok []
  | (k, x) :: r =>
      match dumps_key k with
      | Raise e => Raise e
      | Ok ks =>
          match dumps_with dflt x with
          | Raise e => Raise e
          | Ok j => match dumps_dict dflt r with Raise e => Raise e | Ok js => Ok ((ks, j) :: js) end
          end
      end
  end.

(* ------------------------------------------------------------------ *)
(** ** Order of stream entry ids *)

(** The entries of a stream have strictly increasing ids (Redis assigns
    every XADD an id greater than the last one of the stream). *)
Fixpoint ids_increasing (es : list stream_entry) : bool :=
  match es with
  | e1 :: (e2 :: _) as r => sid_ltb e1.1 e2.1 && ids_increasing r
  | _ => true
  end.

(* ------------------------------------------------------------------ *)
(** ** [_filter_user_visible_messages] (api/routes/chat.py) *)

(** [msg.type] of the LangChain message classes. *)
Definition msg_type (m : message) : string :=
  match m with
  | HumanMessage _ => "human"
  | AIMessage _ _ => "ai"
  | ToolMessage _ _ => "tool"
  | SystemMessage _ => "system"
  end.

(** [extract_content] (api/utils.py) on a [BaseMessage]: its [content]. *)
Definition extract_content (m : message) : string :=
  match m with
  | HumanMessage c | AIMessage c _ | ToolMessage _ c | SystemMessage c => c
  end.

(** The fields of [HistoryMessage] computed from the message itself
    (timestamp, name and artifact come from attributes not modelled). *)
Record HistoryMessage := {
  hm_id : string;
  hm_role : string;
  hm_content : string;
  hm_type : string
}.

(** Whether the loop keeps a message: tool and system messages are
    skipped, and so are AI messages with tool calls or empty content. *)
Definition user_visible (m : message) : bool :=
  match m with
  | ToolMessage _ _ | SystemMessage _ => false
  | AIMessage c tcs => bool_decide (tcs = []) && negb (String.eqb c EmptyString)
  | HumanMessage _ => true
  end.

(** The entry built for the message at position [i] with id [mid]
    ([getattr(msg, "id", None) or f"{thread_id}_{i}"]). *)
Definition history_entry (thread_id : string) (i : nat) (m : message) (mid : option string)
  : HistoryMessage :=
  {| hm_id := match mid with
              | Some s => if String.eqb s EmptyString then thread_id ++ "_" ++ pretty (N.of_nat i) else s
              | None => thread_id ++ "_" ++ pretty (N.of_nat i)
              end;
     hm_role := match m with HumanMessage _ => "user" | _ => "assistant" end;
     hm_content := extract_content m;
     hm_type := msg_type m |}.

(** The [for i, msg in enumerate(messages)] loop, from position [i]. *)
Fixpoint filter_visible_from (thread_id : string) (i : nat) (msgs : list (message * option string))
  : list HistoryMessage :=
  match msgs with
  | [] => []
  | (m, mid) :: r =>
      if user_visible m then history_entry thread_id i m mid :: filter_visible_from thread_id (S i) r
      else filter_visible_from thread_id (S i) r
  end.

Definition filter_user_visible_messages (msgs : list (message * option string)) (thread_id : string)
  : list HistoryMessage :=
  filter_visible_from thread_id 0 msgs.

(* ------------------------------------------------------------------ *)
(** ** [Settings.psycopg_connection] (config/settings.py) *)

(** [old in s] *)
Definition contains (sub s : string) : bool :=
  match String.index 0 sub s with Some _ => true | None => false end.

(** [s.replace(old, new, 1)] *)
Definition replace_first (old new s : string) : string :=
  match String.index 0 old s with
  | Some n => substring 0 n s ++ new ++
              substring (n + String.length old) (String.length s - (n + String.length old)) s
  | None => s
  end.

(** [s.split(sep, 1)[-1]] *)
Definition split_last1 (sep s : string) : string :=
  match String.index 0 sep s with
  | Some n => substring (n + String.length sep) (String.length s - (n + String.length sep)) s
  | None => s
  end.

Definition psycopg_connection (conn_str : string) : string :=
  if String.prefix "postgresql://" conn_str then
    replace_first "postgresql://" "postgresql+psycopg://" conn_str
  else if negb (String.prefix "postgresql+psycopg://" conn_str) && contains "://" conn_str then
    "postgresql+psycopg://" ++ split_last1 "://" conn_str
  else conn_str.

(* ------------------------------------------------------------------ *)
(** ** Concrete inputs used by the examples below *)

(** The message of the unit test [test_publish_message_with_stream_enabled]. *)
Definition test_token_message : StreamMessage :=
  {| thread_id := "thread_123"; node_name := "query_or_respond"; message_type := "token";
     status := "streaming"; timestamp := 1705740000; data := PyDict [(PyStr "token", PyStr "hi")];
     execution_time_ms := None |}.

Definition empty_redis : redis_store :=
  {| streams := empty; ttls := empty; published := []; redis_up := true |}.

(** [get_settings()] with no environment variable set. *)
Definition default_settings : Settings :=
  {| redis_stream_enabled := false; stream_ttl_seconds := 3600; stream_max_length := 1000;
     workflow_timeout_seconds := 300; rerank_enabled := false; project_search_enabled := false;
     project_search_api_url := None; project_search_api_username := None;
     project_search_api_password := None |}.

Definition stream_settings : Settings :=
  {| redis_stream_enabled := true; stream_ttl_seconds := 3600; stream_max_length := 1000;
     workflow_timeout_seconds := 300; rerank_enabled := false; project_search_enabled := false;
     project_search_api_url := None; project_search_api_username := None;
     project_search_api_password := None |}.

Definition rerank_settings : Settings :=
  {| redis_stream_enabled := false; stream_ttl_seconds := 3600; stream_max_length := 1000;
     workflow_timeout_seconds := 300; rerank_enabled := true; project_search_enabled := false;
     project_search_api_url := None; project_search_api_username := None;
     project_search_api_password := None |}.

(** A store whose log for thread ["t1"] holds two entries. *)
Definition two_entry_redis : redis_store :=
  {| streams := <["workflow:execution:t1" := [((1, 0)%N, [("node_name", "query_or_respond")]);
                                              ((2, 0)%N, [("node_name", "generate")])]]> empty;
     ttls := empty; published := []; redis_up := true |}.

(** The same store after a third entry was appended. *)
Definition three_entry_redis : redis_store :=
  {| streams := <["workflow:execution:t1" := [((1, 0)%N, [("node_name", "query_or_respond")]);
                                              ((2, 0)%N, [("node_name", "generate")]);
                                              ((3, 0)%N, [("node_name", "workflow")])]]> empty;
     ttls := empty; published := []; redis_up := true |}.

Definition sample_doc : doc :=
  {| doc_source := "{'source': 'a.pdf'}"; page_content := "text"; relevance_score := Some "0.9000" |}.

Definition call_A : tool_call := {| call_name := "retrieve_context"; call_args := "A" |}.
Definition call_B : tool_call := {| call_name := "retrieve_context"; call_args := "B" |}.

(** A model that asks for two retrievals when tools are bound and answers
    otherwise. *)
Definition two_call_llm (c : llm_call) : string * list tool_call :=
  match call_tools c with
  | [] => ("final answer", [])
  | _ => (EmptyString, [call_A; call_B])
  end.

(** A model that always answers directly. *)
Definition direct_llm (c : llm_call) : string * list tool_call := ("RAG is retrieval.", []).

Definition doc_tool (tc : tool_call) : string :=
  if String.eqb (call_args tc) "A" then "doc-A" else "doc-B".

(** A network where the token request succeeds, the first search gets a
    401, the second token request succeeds and the retried search gets a 500. *)
Definition expiring_env (i : nat) : http_answer :=
  match i with
  | 0%nat => HResp 200 (PyDict [(PyStr "access_token", PyStr "tok0")])
  | 1%nat => HResp 401 PyNone
  | 2%nat => HResp 200 (PyDict [(PyStr "access_token", PyStr "tok1")])
  | 3%nat => HResp 500 PyNone
  | _ => HTimeout
  end.

Definition fresh_client : client_state := {| token := PyNone; http_log := [] |}.

Definition sample_db : checkpoint_db :=
  {| checkpoint_writes := [{| row_thread_id := "t1"; row_rest := "w" |}];
     checkpoint_blobs := [{| row_thread_id := "t2"; row_rest := "b" |}];
     checkpoints := [{| row_thread_id := "t1"; row_rest := "c" |}];
     checkpoint_migrations := [1%Z]; db_up := true |}.

Definition news_request : ChatRequest :=
  {| req_thread_id := "t1"; req_user_id := None; req_message := "news today?";
     req_chat_model := None |}.

(** Project search enabled, with an API URL and credentials. *)
Definition project_settings : Settings :=
  {| redis_stream_enabled := false; stream_ttl_seconds := 3600; stream_max_length := 1000;
     workflow_timeout_seconds := 300; rerank_enabled := false; project_search_enabled := true;
     project_search_api_url := Some "http://projects.local"; project_search_api_username := Some "svc";
     project_search_api_password := Some "secret" |}.

(** A network where the token request succeeds and the search finds nothing. *)
Definition no_items_env (i : nat) : http_answer :=
  match i with
  | 0%nat => HResp 200 (PyDict [(PyStr "access_token", PyStr "tok0")])
  | 1%nat => HResp 200 (PyDict [(PyStr "items", PyList []); (PyStr "total", PyInt 0)])
  | _ => HTimeout
  end.

(** A network that always times out. *)
Definition timeout_env (i : nat) : http_answer := HTimeout.

(** A client holding a cached token. *)
Definition cached_client : client_state := {| token := PyStr "tok0"; http_log := [] |}.

Definition sample_project : pyval :=
  PyDict [(PyStr "project_name", PyStr "Atlas"); (PyStr "company_name", PyStr "Acme");
          (PyStr "core_team", PyList [PyDict [(PyStr "name", PyStr "Li")]; PyDict [(PyStr "name", PyStr "Wu")]])].

(** A Redis server that does not answer. *)
Definition down_redis : redis_store :=
  {| streams := empty; ttls := empty; published := []; redis_up := false |}.

(** A stored conversation of one tool turn, without message ids. *)
Definition tool_turn_msgs : list (message * option string) :=
  [(HumanMessage "hi", None); (AIMessage EmptyString [call_A], None);
   (ToolMessage "retrieve_context" "doc-A", None); (AIMessage "hello" [], None)].

(* ================================================================== *)
(** * Properties *)

(** ** Serialization *)

Example to_json_message_payload :
  to_json 5 {| thread_id := "t1"; node_name := "generate"; message_type := "output";
               status := "completed"; timestamp := 17; data := PyDict [(PyStr "m", PyMsg "ai" "hi")];
               execution_time_ms := None |}
  = Ok (render (JObj [("thread_id", JStr "t1"); ("node_name", JStr "generate");
                      ("message_type", JStr "output"); ("status", JStr "completed");
                      ("timestamp", JNum 17); ("data", JObj [("m", message_to_dict "ai" "hi")]);
                      ("execution_time_ms", JNull)])).
Proof. reflexivity. Qed.

(** A tuple used as a dict key makes the primary encoding fail. *)
Example to_json_bad_key :
  to_json 5 {| thread_id := "t1"; node_name := "tools"; message_type := "output";
               status := "completed"; timestamp := 17; data := PyDict [(PyTuple [], PyInt 1)];
               execution_time_ms := None |}
  = Ok (render (JObj [("thread_id", JStr "t1"); ("node_name", JStr "tools");
                      ("message_type", JStr "output"); ("status", JStr "error");
                      ("error", JStr "Serialization failed: keys must be str, int, float, bool or None");
                      ("timestamp", JNum 5)])).
Proof. reflexivity. Qed.

(** C10: [StreamMessage.to_json] never raises.  Payload values JSON cannot
    encode go through the default hook (LangChain messages to
    [message_to_dict] dictionaries, other objects to [str(obj)]); when the
    encoding still fails, the result is the fallback object keeping
    [thread_id], [node_name] and [message_type], with status ["error"]. *)
Theorem to_json_total (now : Z) (m : StreamMessage) :
  (forall ty c, dumps_value (PyMsg ty c) = Ok (message_to_dict ty c)) /\
  (forall s, dumps_value (PyObj (Some s)) = Ok (JStr s)) /\
  ((exists j, dumps_value (msg_dict m) = Ok j /\ to_json now m = Ok (render j)) \/
   (exists e, dumps_value (msg_dict m) = Raise e /\
      to_json now m =
        Ok (render (JObj [("thread_id", JStr (thread_id m)); ("node_name", JStr (node_name m));
                          ("message_type", JStr (message_type m)); ("status", JStr "error");
                          ("error", JStr ("Serialization failed: " ++ exn_str e));
                          ("timestamp", JNum now)])))).
Proof.
  split; [reflexivity|]. split; [reflexivity|].
  unfold to_json, to_json_value.
  destruct (dumps_value (msg_dict m)) as [j|e] eqn:E.
  - left. exists j. split; reflexivity.
  - right. exists e. split; reflexivity.
Qed.

(** ** Publishing *)

Lemma publish_message_streams (now : Z) (st : redis_store) (m : StreamMessage) :
  streams (publish_message now st m) = streams st /\ ttls (publish_message now st m) = ttls st.
Proof.
  unfold publish_message, redis_publish.
  destruct (to_json now m); [|split; reflexivity].
  destruct (redis_up st); split; reflexivity.
Qed.

(** C1 (code defect): with the stream mode enabled, publishing a message
    through [publish_message] leaves the durable log of the thread empty
    and sets no TTL; only the Pub/Sub broadcast happens. *)
Theorem publish_message_skips_durable_log :
  let st := publish_message 1705740000 empty_redis test_token_message in
  streams st !! stream_key "thread_123" = None /\
  ttls st !! stream_key "thread_123" = None /\
  length (published st) = 1%nat /\
  (forall now st0 m, streams (publish_message now st0 m) = streams st0 /\
                     ttls (publish_message now st0 m) = ttls st0).
Proof.
  split; [reflexivity|]. split; [reflexivity|]. split; [reflexivity|].
  exact publish_message_streams.
Qed.

(** ** The streaming driver: terminal events *)

Lemma chunk_events_not_terminal (now el : Z) (tid : string) (c : chunk) :
  Forall (fun m => is_terminal m = false) (chunk_events now el tid c).
Proof.
  destruct c as [node content md|ups|payload]; simpl.
  - case_bool_decide; [|constructor].
    destruct (String.eqb content EmptyString); repeat constructor.
  - apply Forall_forall. intros m Hm. apply list_elem_of_fmap in Hm.
    destruct Hm as [nu [-> _]]. reflexivity.
  - repeat constructor.
Qed.

Lemma terminal_events_process_stream (now el : Z) (tid : string) (cs : list chunk) :
  terminal_events (process_stream now el tid cs) = [].
Proof.
  unfold terminal_events, process_stream.
  induction cs as [|c cs IH]; simpl; [reflexivity|].
  rewrite filter_app, IH, app_nil_r.
  pose proof (chunk_events_not_terminal now el tid c) as HF.
  induction HF as [|m ms Hm _ IHF]; simpl; [reflexivity|].
  rewrite filter_cons, decide_False; [exact IHF|congruence].
Qed.

(** C3: a streamed turn emits exactly one terminal event, [complete] when
    the workflow finishes and [error] when it fails or times out, and none
    when the caller cancels it; the timeout error carries the
    classification ["timeout"] and the configured budget. *)
Theorem stream_turn_terminal_events (settings : Settings) (now el total : Z) (tid : string)
    (cs : list chunk) (outcome : turn_outcome) :
  let evs := stream_workflow_to_redis settings now el total tid cs outcome in
  match outcome with
  | CancelledByCaller => terminal_events evs = []
  | Finished => exists m, terminal_events evs = [m] /\ message_type m = "complete"
  | TimedOut =>
      exists m, terminal_events evs = [m] /\ message_type m = "error" /\
        py_get "error_type" (data m) = Some (PyStr "timeout") /\
        py_get "timeout_seconds" (data m) = Some (PyInt (workflow_timeout_seconds settings))
  | Failed _ =>
      exists m, terminal_events evs = [m] /\ message_type m = "error" /\
        py_get "error_type" (data m) = Some (PyStr "execution_error")
  end.
Proof.
  cbv zeta. unfold stream_workflow_to_redis, terminal_events.
  rewrite filter_app. fold (terminal_events (process_stream now el tid cs)).
  rewrite terminal_events_process_stream, app_nil_l.
  destruct outcome as [| | |e].
  - eexists. split; [reflexivity|reflexivity].
  - reflexivity.
  - eexists. split; [reflexivity|].
    split; [reflexivity|]. split; reflexivity.
  - eexists. split; [reflexivity|].
    split; reflexivity.
Qed.

(** ** Thread deletion *)

Lemma filter_all {A} (P : A -> Prop) `{forall x, Decision (P x)} (l : list A) :
  Forall P l -> filter P l = l.
Proof.
  induction 1 as [|x l Hx _ IH]; [reflexivity|].
  rewrite filter_cons_True; [by rewrite IH|exact Hx].
Qed.

Lemma filter_none_left (t : string) (l : list row) :
  Forall (fun r => row_thread_id r <> t) (filter (fun r => row_thread_id r <> t) l).
Proof.
  apply Forall_forall. intros r Hr. apply list_elem_of_filter in Hr.
  apply Hr.
Qed.

(** C9: with a reachable database, [delete_thread] answers 204 and keeps
    exactly the rows of other threads in the three checkpoint tables; for a
    [thread_id] without rows it changes nothing and every statement reports
    zero deleted rows. *)
Theorem delete_thread_idempotent (db : checkpoint_db) (tid : string) :
  db_up db = true ->
  let '(st, db', (w, b, c)) := delete_thread db tid in
  st = NoContent /\
  checkpoint_writes db' = filter (fun r => row_thread_id r <> tid) (checkpoint_writes db) /\
  checkpoint_blobs db' = filter (fun r => row_thread_id r <> tid) (checkpoint_blobs db) /\
  checkpoints db' = filter (fun r => row_thread_id r <> tid) (checkpoints db) /\
  Forall (fun r => row_thread_id r <> tid) (all_thread_rows db') /\
  (Forall (fun r => row_thread_id r <> tid) (all_thread_rows db) ->
   db' = db /\ w = 0%nat /\ b = 0%nat /\ c = 0%nat).
Proof.
  intros Hup. unfold delete_thread, delete_where. rewrite Hup.
  split; [reflexivity|]. split; [reflexivity|]. split; [reflexivity|]. split; [reflexivity|].
  split.
  - unfold all_thread_rows; simpl. rewrite !Forall_app. split_and!; apply filter_none_left.
  - unfold all_thread_rows. rewrite !Forall_app. intros (Hw & Hb & Hc).
    rewrite (filter_all _ _ Hw), (filter_all _ _ Hb), (filter_all _ _ Hc).
    destruct db; simpl in *; subst. split_and!; [reflexivity| lia..].
Qed.

(** ** The workflow graph *)

(** C6: when the decision call answers with no tool call, the turn ends
    right after it: one model call, the user message and that answer are
    the only messages added, and no tool result is appended. *)
Theorem decide_without_tools_is_final (settings : Settings) (now_iso : string)
    (llm : llm_call -> string * list tool_call) (run_tool : tool_call -> string)
    (cfg : configurable) (history : list message) (user content : string) :
  llm (query_or_respond_call settings now_iso cfg (history ++ [HumanMessage user])) = (content, []) ->
  run_turn settings now_iso llm run_tool cfg history user =
    ((history ++ [HumanMessage user; AIMessage content []])%list,
     [query_or_respond_call settings now_iso cfg (history ++ [HumanMessage user])]).
Proof.
  intros Hllm. unfold run_turn, llm_answer. rewrite Hllm.
  unfold tools_condition. rewrite last_app. simpl.
  rewrite <- app_assoc. reflexivity.
Qed.

Lemma extract_user_question_last (pre post : list message) (u : string) :
  Forall (fun m => forall c, m <> HumanMessage c) post ->
  extract_user_question (pre ++ HumanMessage u :: post) = u.
Proof.
  intros H. unfold extract_user_question. rewrite fold_left_app. simpl.
  generalize u. induction H as [|m post Hm _ IH]; intros acc; [reflexivity|].
  simpl. destruct m; try (apply IH); exfalso; eapply Hm; reflexivity.
Qed.

Lemma extract_retrieved_context_last (pre : list message) (tcs : list tool_call) (tc : tool_call)
    (run_tool : tool_call -> string) :
  extract_retrieved_context
    (pre ++ map (fun t => ToolMessage (call_name t) (run_tool t)) (tcs ++ [tc])) = run_tool tc.
Proof.
  unfold extract_retrieved_context. rewrite map_app, !fold_left_app. reflexivity.
Qed.

(** C5 (as the code does it): after tool calls, the generation call binds
    no tool and receives a single user message, the answer prompt filled
    with the latest user question and the content of the latest tool
    result only; its answer is appended as the final message. *)
Theorem generate_uses_latest_tool_result (settings : Settings) (now_iso : string)
    (llm : llm_call -> string * list tool_call) (run_tool : tool_call -> string)
    (cfg : configurable) (history : list message) (user content : string)
    (tcs : list tool_call) (tc : tool_call) :
  llm (query_or_respond_call settings now_iso cfg (history ++ [HumanMessage user]))
    = (content, (tcs ++ [tc])%list) ->
  let msgs2 := (history ++ [HumanMessage user; AIMessage content (tcs ++ [tc])]
                 ++ map (fun t => ToolMessage (call_name t) (run_tool t)) (tcs ++ [tc]))%list in
  let c2 := {| call_model := cfg_chat_model cfg; call_tools := [];
               call_input := [HumanMessage (generate_answer_prompt
                                (str_or user "No question provided.")
                                (str_or (run_tool tc) "No supporting documents were retrieved."))] |} in
  run_turn settings now_iso llm run_tool cfg history user =
    ((msgs2 ++ [llm_answer llm c2])%list,
     [query_or_respond_call settings now_iso cfg (history ++ [HumanMessage user]); c2]).
Proof.
  intros Hllm msgs2 c2. unfold run_turn.
  assert (Ha : llm_answer llm (query_or_respond_call settings now_iso cfg (history ++ [HumanMessage user])%list)
               = AIMessage content (tcs ++ [tc])%list) by (unfold llm_answer; rewrite Hllm; reflexivity).
  rewrite Ha.
  set (msgs1 := ((history ++ [HumanMessage user]) ++ [AIMessage content (tcs ++ [tc])])%list).
  assert (Hc : tools_condition msgs1 = true).
  { unfold tools_condition, msgs1. rewrite last_app. destruct tcs; reflexivity. }
  assert (Ht : tools_node run_tool msgs1
               = map (fun t => ToolMessage (call_name t) (run_tool t)) (tcs ++ [tc])%list).
  { unfold tools_node, msgs1. rewrite last_app. reflexivity. }
  rewrite Hc, Ht.
  assert (Hm : (msgs1 ++ map (fun t => ToolMessage (call_name t) (run_tool t)) (tcs ++ [tc]))%list
               = msgs2).
  { unfold msgs1, msgs2. rewrite <- !app_assoc. reflexivity. }
  rewrite Hm.
  assert (Hq : extract_user_question msgs2 = user).
  { unfold msgs2. apply extract_user_question_last. constructor.
    - intros c; discriminate.
    - apply Forall_forall. intros m Hm'. apply list_elem_of_fmap in Hm'.
      destruct Hm' as [t [-> _]]. intros c; discriminate. }
  assert (Hd : extract_retrieved_context msgs2 = run_tool tc).
  { unfold msgs2. rewrite app_assoc. apply extract_retrieved_context_last. }
  assert (Hg : generate_call cfg msgs2 = c2).
  { unfold generate_call, c2. rewrite Hq, Hd. reflexivity. }
  rewrite Hg. reflexivity.
Qed.

(** C5 (counterexample): the decision call asks for two retrievals; both
    results are appended to the state, but the generation call receives only
    the answer prompt filled with the second result: the first one
    (["doc-A"]) and the rest of the history are not part of its input. *)
Lemma generate_drops_earlier_tool_results :
  let '(msgs, calls) := run_turn default_settings "now" two_call_llm doc_tool [] [] "q" in
  In (ToolMessage "retrieve_context" "doc-A") msgs /\
  In (ToolMessage "retrieve_context" "doc-B") msgs /\
  exists c2, last calls = Some c2 /\ call_tools c2 = [] /\
    call_input c2 = [HumanMessage (generate_answer_prompt "q" "doc-B")] /\
    String.index 0 "doc-A" (generate_answer_prompt "q" "doc-B") = None.
Proof.
  vm_compute. split; [right; right; left; reflexivity|].
  split; [right; right; right; left; reflexivity|].
  eexists. split; [reflexivity|]. split; [reflexivity|]. split; reflexivity.
Qed.

(** C7 (code defect): the streaming endpoint never honours a web-search
    toggle.  [ChatRequest] declares no [enable_websearch] field, so every
    request fails with [AttributeError] at [req.enable_websearch], before a
    configuration is handed to the graph.  And whatever the configuration,
    [enable_websearch] included, the decision call binds the same tools, of
    which [web_search] is never one. *)
Theorem websearch_toggle_ignored (settings : Settings) (now_iso : string)
    (req : ChatRequest) (cfg : configurable) (msgs : list message) :
  chat_stream_endpoint req = Raise (attribute_error "ChatRequest" "enable_websearch") /\
  call_tools (query_or_respond_call settings now_iso cfg msgs) = decide_tools settings /\
  ~ In WebSearchTool (call_tools (query_or_respond_call settings now_iso cfg msgs)).
Proof.
  split; [reflexivity|]. split; [reflexivity|]. simpl. unfold decide_tools.
  destruct (project_search_enabled settings); simpl; intuition discriminate.
Qed.

(** ** Tool capabilities *)

Lemma search_projects_body_nonempty (env : nat -> http_answer) (q s : string) :
  search_projects_body env q = Ok s -> s <> EmptyString.
Proof.
  unfold search_projects_body.
  repeat case_match; intros Hs; inversion Hs; subst; discriminate.
Qed.

(** C4 (counterexample): a web search raises [AttributeError] even when
    the Tavily call would answer, and with re-ranking enabled a re-ranker
    that times out makes [retrieve_context] raise
    [RuntimeError("Rerank failed: ...")]; neither returns a message. *)
Lemma tools_raise_on_expected_failures :
  web_search default_settings (Ok (TavStr "result")) = Raise (attribute_error "Settings" "tavily_api_key") /\
  retrieve_context rerank_settings (Ok [sample_doc]) (Raise TimeoutException)
    = Raise (RuntimeError ("Rerank failed: " ++ exn_str TimeoutException)).
Proof. split; reflexivity. Qed.

(** C4 (as the code does it): project search never raises and always
    returns a non-empty message, whatever the configuration and whatever
    the network answers.  Web search raises [AttributeError] on every call:
    [_get_tavily_search_tool] reads [settings.tavily_api_key], which
    [Settings] does not declare, outside the [try] block.  Document
    retrieval catches nothing: a vector-store failure propagates, and with
    re-ranking enabled and a non-empty hit list a re-ranker failure is
    raised again, as [ImportError] on the import path and as
    [RuntimeError("Rerank failed: ...")] otherwise. *)
Theorem tool_failures_handled (settings : Settings) (env : nat -> http_answer) (query : string)
    (invoke : result tavily_answer) (compress : result (list doc)) (retrieved : list doc) (e : exn) :
  (exists s, search_projects settings env query = Ok (Content s) /\ s <> EmptyString) /\
  web_search settings invoke = Raise (attribute_error "Settings" "tavily_api_key") /\
  retrieve_context settings (Raise e) compress = Raise e /\
  (rerank_enabled settings = true -> retrieved <> [] ->
   retrieve_context settings (Ok retrieved) (Raise e) =
     Raise (match e with
            | ImportError _ =>
                ImportError "Could not import DashScopeRerank. Please install it with `pip install dashscope`."
            | _ => RuntimeError ("Rerank failed: " ++ exn_str e)
            end)).
Proof.
  split; [|split; [reflexivity|split; [reflexivity|]]].
  - unfold search_projects, search_projects_impl.
    repeat match goal with
           | |- context [if ?b then _ else _] => destruct b
           end;
    try (eexists; split; [reflexivity|discriminate]).
    destruct (search_projects_body env query) as [s|[]] eqn:E;
      try (eexists; split; [reflexivity|discriminate]).
    eexists. split; [reflexivity|]. exact (search_projects_body_nonempty env query s E).
  - intros Hr Hn. unfold retrieve_context, rerank_documents. rewrite Hr.
    rewrite (bool_decide_eq_false_2 _ Hn). simpl. destruct e; reflexivity.
Qed.

(** ** The subscription endpoint *)

Lemma sid_ltb_trans (a b c : sid) :
  sid_ltb a b = true -> sid_ltb b c = true -> sid_ltb a c = true.
Proof.
  destruct a as [a1 a2], b as [b1 b2], c as [c1 c2]. unfold sid_ltb; simpl.
  rewrite !orb_true_iff, !andb_true_iff, !N.ltb_lt, !N.eqb_eq. lia.
Qed.

Lemma last_of_cases (es : list stream_entry) (x : sid) :
  last_of es x = x \/ In (last_of es x) (map fst es).
Proof.
  unfold last_of. revert x.
  induction es as [|e es IH]; intros x; simpl; [left; reflexivity|].
  destruct (IH e.1) as [H|H]; [rewrite H; right; left; reflexivity|right; right; exact H].
Qed.

(** Every entry XREAD returns lies strictly after the id it was given. *)
Lemma xread_after (st : redis_store) (key : string) (x : sid) (es : list stream_entry) :
  xread st key x = Ok es -> Forall (fun e => sid_ltb x e.1 = true) es.
Proof.
  unfold xread. destruct (redis_up st); intros H; inversion H; subst.
  apply Forall_take. apply Forall_forall. intros e He.
  apply list_elem_of_filter in He. apply He.
Qed.

Lemma stream_new_messages_after (tid : string) (rounds : list redis_store) (x : sid) :
  Forall (fun s => exists e, s = SentJson (new_frame e) /\ sid_ltb x e.1 = true)
    (stream_new_messages tid x rounds).
Proof.
  revert x. induction rounds as [|st rest IH]; intros x; simpl; [constructor|].
  destruct (xread st (stream_key tid) x) as [es|err] eqn:E; [|apply IH].
  pose proof (xread_after _ _ _ _ E) as Hes.
  apply Forall_app. split.
  - apply Forall_forall. intros s Hs. apply list_elem_of_fmap in Hs.
    destruct Hs as [e [-> He]]. exists e. split; [reflexivity|].
    rewrite Forall_forall in Hes. exact (Hes e He).
  - specialize (IH (last_of es x)). eapply Forall_impl; [exact IH|].
    intros s [e [-> Hl]]. exists e. split; [reflexivity|].
    destruct (last_of_cases es x) as [Hx|Hin]; [rewrite <- Hx; exact Hl|].
    apply in_map_iff in Hin. destruct Hin as [e' [He' Hin]].
    rewrite Forall_forall in Hes. apply list_elem_of_In in Hin.
    specialize (Hes e' Hin). rewrite He' in Hes.
    exact (sid_ltb_trans _ _ _ Hes Hl).
Qed.

(** C2 (counterexample): with [REDIS_STREAM_ENABLED] unset (its default),
    a subscriber with no offset gets no replay of the thread's log, which
    holds two entries; only Pub/Sub payloads would be forwarded. *)
Lemma subscription_without_stream_mode_skips_replay :
  length (stream_at two_entry_redis (stream_key "t1")) = 2%nat /\
  websocket_stream default_settings "t1" None two_entry_redis [three_entry_redis] [] = [].
Proof. split; reflexivity. Qed.

(** C2 (as the code does it): in the stream mode, a subscriber with no
    offset whose XRANGE succeeds first receives every entry of the log,
    oldest first, as [{"message_id", "is_history": True, **fields}] frames,
    and afterwards only frames of entries with an id strictly greater than
    the last replayed one; when the XRANGE fails nothing is replayed and
    delivery starts after id [0-0]; with an offset [X], no replay happens and every
    frame carries an id strictly greater than [X].  Without the stream mode
    only the live Pub/Sub payloads are forwarded. *)
Theorem websocket_stream_delivery (settings : Settings) (tid : string) (last : option sid)
    (hist : redis_store) (rounds : list redis_store) (pm : list (string * string)) :
  let out := websocket_stream settings tid last hist rounds pm in
  (redis_stream_enabled settings = false -> out = stream_pubsub_fallback pm) /\
  (redis_stream_enabled settings = true ->
   match last with
   | Some x => Forall (fun s => exists e, s = SentJson (new_frame e) /\ sid_ltb x e.1 = true) out
   | None =>
       if redis_up hist then
         let es := stream_at hist (stream_key tid) in
         exists rest, out = (map (fun e => SentJson (history_frame e)) es ++ rest)%list /\
           Forall (fun s => exists e, s = SentJson (new_frame e) /\
                              sid_ltb (last_of es (0, 0)%N) e.1 = true) rest
       else
         out = stream_new_messages tid (0, 0)%N rounds /\
         Forall (fun s => exists e, s = SentJson (new_frame e) /\ sid_ltb (0, 0)%N e.1 = true) out
   end).
Proof.
  cbv zeta. split; intros Hs; unfold websocket_stream; rewrite Hs; [reflexivity|].
  destruct last as [x|]; [apply stream_new_messages_after|].
  unfold send_stream_history, xrange. destruct (redis_up hist).
  - exists (stream_new_messages tid (last_of (stream_at hist (stream_key tid)) (0, 0)%N) rounds).
    split; [reflexivity|apply stream_new_messages_after].
  - split; [reflexivity|apply stream_new_messages_after].
Qed.

(** ** The project-search client *)

Lemma length_snoc {A} (l : list A) (x : A) : length (l ++ [x])%list = S (length l).
Proof. rewrite length_app. simpl. lia. Qed.

(** C8: when the search request made with the token [tok] is answered 401,
    the client drops the cached token and sends exactly one token request;
    if it yields a token it retries the search exactly once, and the result
    is the body of that retry when it is a 2xx answer and an exception
    otherwise; no further request is sent. *)
Theorem search_retries_once_after_401 (env : nat -> http_answer) (q : string) (lim : Z)
    (st0 st1 : client_state) (tok b : pyval) :
  get_token env st0 = (Ok tok, st1) ->
  env (length (http_log st1)) = HResp 401 b ->
  let n := length (http_log st1) in
  let '(r, st') := search env q lim st0 in
  exists suffix,
    http_log st' = (http_log st1 ++ [(GetSearch q lim tok, HResp 401 b); (PostToken, env (S n))]
                      ++ suffix)%list /\
    ((suffix = [] /\ exists e, r = Raise e) \/
     (exists t', suffix = [(GetSearch q lim t', env (S (S n)))] /\
        forall v, r = Ok v <-> exists c, env (S (S n)) = HResp c v /\ (200 <= c < 300)%Z)).
Proof.
  intros Htok H401. cbv zeta.
  unfold search, cbind, ctry. rewrite Htok.
  destruct st1 as [tk1 log1]; simpl in *.
  unfold search_once, cbind, http. simpl. rewrite H401. simpl.
  unfold get_token, cbind, get_token_field, set_token. simpl.
  unfold http. simpl. rewrite length_snoc.
  destruct (env (S (length log1))) as [c1 body1| |m1] eqn:E1; simpl.
  - destruct (andb (Z.leb 200 c1) (Z.ltb c1 300)) eqn:Hc1; simpl.
    + destruct (py_get "access_token" body1) as [t'|] eqn:Ht; simpl.
      * rewrite !length_snoc.
        destruct (env (S (S (length log1)))) as [c2 body2| |m2] eqn:E2; simpl;
          [destruct ((200 <=? c2)%Z && (c2 <? 300)%Z) eqn:Hc2; simpl| |];
          eexists; (split; [rewrite <- !app_assoc; reflexivity|]); right;
          exists t'; (split; [reflexivity|]); intros v.
        -- apply andb_true_iff in Hc2. rewrite Z.leb_le, Z.ltb_lt in Hc2.
           split; [intros [= <-]; exists c2; split; [reflexivity|lia]|].
           intros (c & [= <- <-] & _). reflexivity.
        -- split; [discriminate|]. intros (c & [= <- <-] & Hc).
           apply andb_false_iff in Hc2. rewrite Z.leb_gt, Z.ltb_ge in Hc2. lia.
        -- split; [discriminate|]. intros (c & Hc & _). discriminate.
        -- split; [discriminate|]. intros (c & Hc & _). discriminate.
      * exists []. split; [rewrite <- !app_assoc; reflexivity|]. left. split; [reflexivity|eauto].
    + exists []. split; [rewrite <- !app_assoc; reflexivity|]. left. split; [reflexivity|eauto].
  - exists []. split; [rewrite <- !app_assoc; reflexivity|]. left. split; [reflexivity|eauto].
  - exists []. split; [rewrite <- !app_assoc; reflexivity|]. left. split; [reflexivity|eauto].
Qed.

(** ** Witnesses: the theorems above applied to concrete inputs *)

Lemma websocket_stream_delivery_witness :
  redis_stream_enabled stream_settings = true /\ redis_up two_entry_redis = true /\
  (exists rest,
    websocket_stream stream_settings "t1" None two_entry_redis [three_entry_redis] []
      = (map (fun e => SentJson (history_frame e)) (stream_at two_entry_redis (stream_key "t1"))
           ++ rest)%list /\
    Forall (fun s => exists e, s = SentJson (new_frame e) /\
              sid_ltb (last_of (stream_at two_entry_redis (stream_key "t1")) (0, 0)%N) e.1 = true)
      rest) /\
  redis_up down_redis = false /\
  websocket_stream stream_settings "t1" None down_redis [three_entry_redis] []
    = stream_new_messages "t1" (0, 0)%N [three_entry_redis].
Proof.
  split; [reflexivity|]. split; [reflexivity|]. split.
  - apply (proj2 (websocket_stream_delivery stream_settings "t1" None two_entry_redis
                    [three_entry_redis] [])); reflexivity.
  - split; [reflexivity|].
    apply (proj2 (websocket_stream_delivery stream_settings "t1" None down_redis
                    [three_entry_redis] []) eq_refl).
Defined.

Lemma tool_failures_handled_witness :
  rerank_enabled rerank_settings = true /\ [sample_doc] <> [] /\
  web_search rerank_settings (Raise TimeoutException) = Raise (attribute_error "Settings" "tavily_api_key") /\
  retrieve_context rerank_settings (Ok [sample_doc]) (Raise TimeoutException)
    = Raise (RuntimeError ("Rerank failed: " ++ exn_str TimeoutException)).
Proof.
  pose proof (tool_failures_handled rerank_settings expiring_env "rag" (Raise TimeoutException)
                (Ok []) [sample_doc] TimeoutException) as (_ & Hw & _ & Hr).
  split_and!; [reflexivity|discriminate|exact Hw|].
  apply Hr; [reflexivity|discriminate].
Defined.

Lemma generate_uses_latest_tool_result_witness :
  two_call_llm (query_or_respond_call default_settings "now" [] ([] ++ [HumanMessage "q"]))
    = (EmptyString, ([call_A] ++ [call_B])%list) /\
  last (snd (run_turn default_settings "now" two_call_llm doc_tool [] [] "q")) =
    Some {| call_model := None; call_tools := [];
            call_input := [HumanMessage (generate_answer_prompt "q" "doc-B")] |}.
Proof.
  assert (H : two_call_llm (query_or_respond_call default_settings "now" [] ([] ++ [HumanMessage "q"]))
              = (EmptyString, ([call_A] ++ [call_B])%list)) by reflexivity.
  split; [exact H|].
  rewrite (generate_uses_latest_tool_result default_settings "now" two_call_llm doc_tool [] []
             "q" EmptyString [call_A] call_B H).
  reflexivity.
Defined.

Lemma decide_without_tools_is_final_witness :
  direct_llm (query_or_respond_call default_settings "now" [] ([] ++ [HumanMessage "what is RAG?"]))
    = ("RAG is retrieval.", []) /\
  run_turn default_settings "now" direct_llm doc_tool [] [] "what is RAG?" =
    (([] ++ [HumanMessage "what is RAG?"; AIMessage "RAG is retrieval." []])%list,
     [query_or_respond_call default_settings "now" [] ([] ++ [HumanMessage "what is RAG?"])]).
Proof.
  split; [reflexivity|].
  apply (decide_without_tools_is_final default_settings "now" direct_llm doc_tool [] []
           "what is RAG?" "RAG is retrieval."); reflexivity.
Defined.

Lemma websearch_toggle_ignored_witness :
  chat_stream_endpoint news_request = Raise (attribute_error "ChatRequest" "enable_websearch") /\
  cfg_get "enable_websearch" [("thread_id", PyStr "t1"); ("enable_websearch", PyBool true)]
    = Some (PyBool true) /\
  ~ In WebSearchTool
      (call_tools (query_or_respond_call project_settings "now"
                     [("thread_id", PyStr "t1"); ("enable_websearch", PyBool true)] [])).
Proof.
  pose proof (websearch_toggle_ignored project_settings "now" news_request
                [("thread_id", PyStr "t1"); ("enable_websearch", PyBool true)] []) as (He & _ & Hn).
  split_and!; [exact He|reflexivity|exact Hn].
Defined.

Lemma search_retries_once_after_401_witness :
  get_token expiring_env fresh_client
    = (Ok (PyStr "tok0"), {| token := PyStr "tok0"; http_log := [(PostToken, expiring_env 0)] |}) /\
  expiring_env 1 = HResp 401 PyNone /\
  let '(r, st') := search expiring_env "rag" RESULT_LIMIT fresh_client in
  exists suffix,
    http_log st' = ([(PostToken, expiring_env 0)]
                     ++ [(GetSearch "rag" RESULT_LIMIT (PyStr "tok0"), HResp 401 PyNone);
                         (PostToken, expiring_env 2)] ++ suffix)%list /\
    ((suffix = [] /\ exists e, r = Raise e) \/
     (exists t', suffix = [(GetSearch "rag" RESULT_LIMIT t', expiring_env 3)] /\
        forall v, r = Ok v <-> exists c, expiring_env 3 = HResp c v /\ (200 <= c < 300)%Z)).
Proof.
  split; [reflexivity|]. split; [reflexivity|].
  apply (search_retries_once_after_401 expiring_env "rag" RESULT_LIMIT fresh_client
           {| token := PyStr "tok0"; http_log := [(PostToken, expiring_env 0)] |}
           (PyStr "tok0") PyNone); reflexivity.
Defined.

Lemma delete_thread_idempotent_witness :
  db_up sample_db = true /\
  let '(st, db', (w, b, c)) := delete_thread sample_db "t3" in
  st = NoContent /\
  checkpoint_writes db' = filter (fun r => row_thread_id r <> "t3") (checkpoint_writes sample_db) /\
  checkpoint_blobs db' = filter (fun r => row_thread_id r <> "t3") (checkpoint_blobs sample_db) /\
  checkpoints db' = filter (fun r => row_thread_id r <> "t3") (checkpoints sample_db) /\
  Forall (fun r => row_thread_id r <> "t3") (all_thread_rows db') /\
  (Forall (fun r => row_thread_id r <> "t3") (all_thread_rows sample_db) ->
   db' = sample_db /\ w = 0%nat /\ b = 0%nat /\ c = 0%nat).
Proof.
  split; [reflexivity|].
  apply (delete_thread_idempotent sample_db "t3"); reflexivity.
Defined.

(* ================================================================== *)
(** * Further properties of the code *)

(** ** Payload normalization *)

Lemma dumps_list_loop (dflt : pyval -> result json) (l : list pyval) :
  (fix go (l : list pyval) : result (list json) :=
     match l with
     | [] => Ok []
     | x :: r =>
         match dumps_with dflt x with
         | Raise e => Raise e
         | Ok j => match go r with Raise e => Raise e | Ok js => Ok (j :: js) end
         end
     end) l = dumps_list dflt l.
Proof. induction l as [|x r IH]; simpl; [reflexivity|]. rewrite IH. reflexivity. Qed.

Lemma dumps_dict_loop (dflt : pyval -> result json) (kvs : list (pyval * pyval)) :
  (fix go (kvs : list (pyval * pyval)) : result (list (string * json)) :=
     match kvs with
     | [] => Ok []
     | (k, x) :: r =>
         match dumps_key k with
         | Raise e => Raise e
         | Ok ks =>
             match dumps_with dflt x with
             | Raise e => Raise e
             | Ok j =>
                 match go r with Raise e => Raise e | Ok js => Ok ((ks, j) :: js) end
             end
         end
     end) kvs = dumps_dict dflt kvs.
Proof. induction kvs as [|[k x] r IH]; simpl; [reflexivity|]. rewrite IH. reflexivity. Qed.

Lemma dumps_with_list (dflt : pyval -> result json) (l : list pyval) :
  dumps_with dflt (PyList l) = match dumps_list dflt l with Raise e => Raise e | Ok js => Ok (JArr js) end.
Proof. simpl. rewrite dumps_list_loop. reflexivity. Qed.

Lemma dumps_with_tuple (dflt : pyval -> result json) (l : list pyval) :
  dumps_with dflt (PyTuple l) = match dumps_list dflt l with Raise e => Raise e | Ok js => Ok (JArr js) end.
Proof. simpl. rewrite dumps_list_loop. reflexivity. Qed.

Lemma dumps_with_dict (dflt : pyval -> result json) (kvs : list (pyval * pyval)) :
  dumps_with dflt (PyDict kvs)
  = match dumps_dict dflt kvs with Raise e => Raise e | Ok js => Ok (JObj js) end.
Proof. simpl. rewrite dumps_dict_loop. reflexivity. Qed.

(** [_normalize_update] is idempotent: normalizing an already normalized
    state delta changes nothing. *)
Theorem normalize_update_idempotent (v : pyval) :
  normalize_update (normalize_update v) = normalize_update v.
Proof.
  induction v using pyval_ind'; try reflexivity.
  - simpl. rewrite map_map. f_equal. apply map_ext_in. intros x Hx.
    rewrite Forall_forall in H. apply H, list_elem_of_In, Hx.
  - simpl. rewrite map_map. f_equal. apply map_ext_in. intros x Hx.
    rewrite Forall_forall in H. apply H, list_elem_of_In, Hx.
  - simpl. rewrite map_map. f_equal. apply map_ext_in. intros [k x] Hx. simpl.
    rewrite Forall_forall in H. f_equal. apply (H (k, x)), list_elem_of_In, Hx.
Qed.

(** Normalizing a payload with [_normalize_update] before publishing does
    not change what [StreamMessage.to_json] makes of it: the dictionaries
    it builds for LangChain messages are the ones the [_default] hook of
    [to_json] would produce, and every other value is kept, so the JSON
    document, or the exception, is the same. *)
Theorem normalize_update_preserves_dumps (v : pyval) :
  dumps_value (normalize_update v) = dumps_value v.
Proof.
  unfold dumps_value.
  induction v using pyval_ind'; try reflexivity.
  - cbn [normalize_update]. rewrite !dumps_with_list.
    assert (E : dumps_list to_json_default (map normalize_update l) = dumps_list to_json_default l).
    { induction H as [|x l Hx _ IH]; simpl; [reflexivity|]. rewrite Hx, IH. reflexivity. }
    rewrite E. reflexivity.
  - cbn [normalize_update]. rewrite !dumps_with_tuple.
    assert (E : dumps_list to_json_default (map normalize_update l) = dumps_list to_json_default l).
    { induction H as [|x l Hx _ IH]; simpl; [reflexivity|]. rewrite Hx, IH. reflexivity. }
    rewrite E. reflexivity.
  - cbn [normalize_update]. rewrite !dumps_with_dict.
    assert (E : dumps_dict to_json_default (map (fun kv => (kv.1, normalize_update kv.2)) kvs)
                = dumps_dict to_json_default kvs).
    { induction H as [|[k x] l Hx _ IH]; simpl; [reflexivity|].
      simpl in Hx. rewrite Hx, IH. reflexivity. }
    rewrite E. reflexivity.
Qed.

(** ** The streaming driver *)

Lemma elem_of_process_stream (now el : Z) (tid : string) (cs : list chunk) (m : StreamMessage) :
  m ∈ process_stream now el tid cs -> exists c, c ∈ cs /\ m ∈ chunk_events now el tid c.
Proof.
  unfold process_stream. induction cs as [|c cs IH]; simpl; [intros Hm; inversion Hm|].
  intros Hm. apply elem_of_app in Hm as [Hm|Hm].
  - exists c. split; [left|exact Hm].
  - destruct (IH Hm) as (c' & Hc' & Hm'). exists c'. split; [right; exact Hc'|exact Hm'].
Qed.

Lemma chunk_events_thread (now el : Z) (tid : string) (c : chunk) (m : StreamMessage) :
  m ∈ chunk_events now el tid c -> thread_id m = tid.
Proof.
  destruct c as [node content md|ups|payload]; simpl.
  - case_bool_decide; [|intros Hm; inversion Hm].
    destruct (String.eqb content EmptyString); intros Hm; [inversion Hm|].
    apply list_elem_of_singleton in Hm. subst. reflexivity.
  - intros Hm. apply list_elem_of_fmap in Hm. destruct Hm as [nu [-> _]]. reflexivity.
  - intros Hm. apply list_elem_of_singleton in Hm. subst. reflexivity.
Qed.

(** Every message a streamed turn publishes, node events and the
    terminal one alike, carries the turn's [thread_id], so it goes to a
    channel [workflow:{thread_id}:...] of that thread. *)
Theorem stream_turn_events_on_thread (settings : Settings) (now el total : Z) (tid : string)
    (cs : list chunk) (outcome : turn_outcome) :
  Forall (fun m => thread_id m = tid /\
                   channel (thread_id m) (node_name m) (message_type m)
                   = "workflow:" ++ tid ++ ":" ++ node_name m ++ ":" ++ message_type m)
    (stream_workflow_to_redis settings now el total tid cs outcome).
Proof.
  apply Forall_forall. intros m Hm.
  assert (Ht : thread_id m = tid).
  { unfold stream_workflow_to_redis in Hm. apply elem_of_app in Hm as [Hm|Hm].
    - apply elem_of_process_stream in Hm as (c & _ & Hm). exact (chunk_events_thread _ _ _ _ _ Hm).
    - destruct outcome; simpl in Hm;
        try (apply list_elem_of_singleton in Hm; subst; reflexivity); inversion Hm. }
  split; [exact Ht|]. unfold channel. rewrite Ht. reflexivity.
Qed.

(** The events published while the graph streams are of three kinds only:
    a ["token"] event of [query_or_respond] or [generate] with status
    ["streaming"] and a non-empty token; an ["output"] event with status
    ["completed"] carrying the elapsed time; or a ["custom"] event of node
    ["custom"] with status ["info"].  None of them is terminal. *)
Theorem process_stream_event_kinds (now el : Z) (tid : string) (cs : list chunk) :
  Forall (fun m =>
     (message_type m = "token" /\ status m = "streaming" /\
      (node_name m = "query_or_respond" \/ node_name m = "generate") /\
      exists tok, tok <> EmptyString /\ py_get "token" (data m) = Some (PyStr tok)) \/
     (message_type m = "output" /\ status m = "completed" /\ execution_time_ms m = Some el) \/
     (message_type m = "custom" /\ node_name m = "custom" /\ status m = "info"))
    (process_stream now el tid cs).
Proof.
  apply Forall_forall. intros m Hm.
  apply elem_of_process_stream in Hm as (c & _ & Hm).
  destruct c as [node content md|ups|payload]; simpl in Hm.
  - case_bool_decide as Hn; [|inversion Hm].
    destruct (String.eqb content EmptyString) eqn:Ec; [inversion Hm|].
    apply list_elem_of_singleton in Hm. subst. left. simpl.
    split; [reflexivity|]. split; [reflexivity|]. split; [exact Hn|].
    exists content. split; [|reflexivity].
    intros ->. discriminate.
  - apply list_elem_of_fmap in Hm. destruct Hm as [nu [-> _]]. right; left. simpl. auto.
  - apply list_elem_of_singleton in Hm. subst. right; right. simpl. auto.
Qed.

Lemma dict_set_keys (k : string) (v : Z) (d : list (string * Z)) :
  map fst (dict_set k v d) = if bool_decide (k ∈ map fst d) then map fst d else (map fst d ++ [k])%list.
Proof.
  induction d as [|[k' v'] d IH]; cbn [dict_set map fst].
  - case_bool_decide as Hk; [inversion Hk|reflexivity].
  - destruct (String.eqb k k') eqn:E.
    + apply String.eqb_eq in E. subst. clear IH. cbn [map fst]. case_bool_decide as Hk; [reflexivity|].
      exfalso. apply Hk. left.
    + apply String.eqb_neq in E. cbn [map fst]. rewrite IH.
      case_bool_decide as H1; case_bool_decide as H2; try reflexivity.
      * exfalso. apply H2. right. exact H1.
      * exfalso. apply elem_of_cons in H2 as [H2|H2]; [congruence|contradiction].
Qed.

Lemma dict_set_invariant (k : string) (v : Z) (d : list (string * Z)) :
  NoDup (map fst d) ->
  NoDup (map fst (dict_set k v d)) /\
  (forall x, x ∈ map fst (dict_set k v d) <-> x = k \/ x ∈ map fst d).
Proof.
  intros Hnd. rewrite dict_set_keys. case_bool_decide as Hk.
  - split; [exact Hnd|]. intros x. split; [auto|]. intros [->|Hx]; auto.
  - split.
    + apply NoDup_app. split_and!; [exact Hnd| |apply NoDup_singleton].
      intros x Hx Hx'. apply list_elem_of_singleton in Hx'. subst. contradiction.
    + intros x. rewrite elem_of_app, list_elem_of_singleton. tauto.
Qed.

(** The [node_times] dictionary reported by the completion event has one
    key per node that produced an update during the turn, and no key twice. *)
Theorem node_times_keys (el : Z) (cs : list chunk) :
  NoDup (map fst (node_times el cs)) /\
  (forall n, n ∈ map fst (node_times el cs) <->
             exists ups, ChUpdates ups ∈ cs /\ n ∈ map fst ups).
Proof.
  unfold node_times.
  assert (Hgen : forall d, NoDup (map fst d) ->
    NoDup (map fst (fold_left (fun d c => match c with
                                          | ChUpdates ups => fold_left (fun d nu => dict_set nu.1 el d) ups d
                                          | _ => d end) cs d)) /\
    (forall n, n ∈ map fst (fold_left (fun d c => match c with
                                          | ChUpdates ups => fold_left (fun d nu => dict_set nu.1 el d) ups d
                                          | _ => d end) cs d) <->
               n ∈ map fst d \/ exists ups, ChUpdates ups ∈ cs /\ n ∈ map fst ups)).
  { induction cs as [|c cs IH]; intros d Hd; simpl.
    - split; [exact Hd|]. intros n. split; [auto|]. intros [H|(ups & Hu & _)]; [exact H|inversion Hu].
    - assert (Hc : NoDup (map fst (match c with
                                  | ChUpdates ups => fold_left (fun d nu => dict_set nu.1 el d) ups d
                                  | _ => d end)) /\
                   forall n, n ∈ map fst (match c with
                                  | ChUpdates ups => fold_left (fun d nu => dict_set nu.1 el d) ups d
                                  | _ => d end) <->
                             n ∈ map fst d \/ exists ups, c = ChUpdates ups /\ n ∈ map fst ups).
      { destruct c as [node content md|ups|payload];
          try (split; [exact Hd|]; intros n; split; [auto|]; intros [H|(ups & Hu & _)]; [exact H|discriminate]).
        clear IH. revert d Hd. induction ups as [|[k x] ups IHu]; intros d Hd; simpl.
        - split; [exact Hd|]. intros n. split; [auto|].
          intros [H|(ups' & [= <-] & Hn)]; [exact H|inversion Hn].
        - destruct (dict_set_invariant k el d Hd) as [Hnd Hm].
          destruct (IHu _ Hnd) as [Hnd' Hm']. split; [exact Hnd'|]. intros n.
          rewrite Hm', Hm. split.
          + intros [[->|H]|(ups' & [= <-] & Hn)]; [|auto|].
            * right. exists ((k, x) :: ups). split; [reflexivity|left].
            * right. exists ((k, x) :: ups). split; [reflexivity|right; exact Hn].
          + intros [H|(ups' & [= <-] & Hn)]; [auto|].
            apply elem_of_cons in Hn as [->|Hn]; [left; left; reflexivity|].
            right. exists ups. split; [reflexivity|exact Hn]. }
      destruct Hc as [Hnd Hm]. destruct (IH _ Hnd) as [Hnd' Hm']. split; [exact Hnd'|].
      intros n. rewrite Hm', Hm. split.
      + intros [[H|(ups & -> & Hn)]|(ups & Hu & Hn)]; [auto| |].
        * right. exists ups. split; [left|exact Hn].
        * right. exists ups. split; [right; exact Hu|exact Hn].
      + intros [H|(ups & Hu & Hn)]; [auto|].
        apply elem_of_cons in Hu as [Heq|Hu]; [left; right; exists ups; split; [symmetry; exact Heq|exact Hn]|].
        right. eauto. }
  destruct (Hgen [] (NoDup_nil_2)) as [Hnd Hm]. split; [exact Hnd|].
  intros n. rewrite Hm. split; [intros [H|H]; [inversion H|exact H]|auto].
Qed.

(** ** The psycopg connection string *)

Lemma prefix_app_self (p x : string) : String.prefix p (p ++ x) = true.
Proof.
  induction p as [|a p IH]; [destruct x; reflexivity|].
  change (String.prefix (String a p) (String a (p ++ x)) = true).
  cbv delta [String.prefix] fix beta iota. fold String.prefix.
  destruct (Ascii.ascii_dec a a) as [_|n]; [exact IH|congruence].
Qed.

Lemma prefix_app_inv (p t : string) : String.prefix p t = true -> exists r, t = p ++ r.
Proof.
  revert t. induction p as [|a p IH]; intros t H; [exists t; reflexivity|].
  destruct t as [|b t]; [discriminate|].
  unfold String.prefix in H; fold String.prefix in H.
  destruct (Ascii.ascii_dec a b) as [->|]; [|discriminate].
  destruct (IH t H) as [r ->]. exists r. reflexivity.
Qed.

Lemma substring_0_length (x : string) : substring 0 (String.length x) x = x.
Proof. induction x as [|a x IH]; [reflexivity|]. cbn. rewrite IH. reflexivity. Qed.

Lemma prefix_app_cancel (p q t : string) : String.prefix (p ++ q) (p ++ t) = String.prefix q t.
Proof.
  induction p as [|a p IH]; [reflexivity|].
  change (String.prefix (String a (p ++ q)) (String a (p ++ t)) = String.prefix q t).
  cbv delta [String.prefix] fix beta iota. fold String.prefix.
  destruct (Ascii.ascii_dec a a) as [_|n]; [exact IH|congruence].
Qed.

Lemma index0_of_prefix (p s : string) : String.prefix p s = true -> index 0 p s = Some 0.
Proof.
  intros H. destruct s as [|b s].
  - destruct p; [reflexivity|discriminate].
  - cbv delta [index] fix beta iota. fold index. rewrite H. reflexivity.
Qed.

Lemma substring_after_prefix (p x : string) :
  substring (String.length p) (String.length (p ++ x) - String.length p) (p ++ x) = x.
Proof.
  induction p as [|a p IH].
  - cbn [String.length String.append]. rewrite Nat.sub_0_r. apply substring_0_length.
  - exact IH.
Qed.

Lemma psycopg_connection_of_driver_uri (r : string) :
  psycopg_connection ("postgresql+psycopg://" ++ r) = "postgresql+psycopg://" ++ r.
Proof.
  unfold psycopg_connection.
  change ("postgresql+psycopg://" ++ r) with ("postgresql" ++ ("+psycopg://" ++ r)) at 1.
  change "postgresql://" with ("postgresql" ++ "://").
  rewrite prefix_app_cancel.
  change (String.prefix "://" ("+psycopg://" ++ r)) with false.
  rewrite prefix_app_self. reflexivity.
Qed.

Lemma contains_middle (q sub r : string) : contains sub (q ++ sub ++ r) = true.
Proof.
  unfold contains. induction q as [|a q IH].
  - change (EmptyString ++ sub ++ r) with (sub ++ r). rewrite index0_of_prefix by apply prefix_app_self. reflexivity.
  - change (String a q ++ sub ++ r) with (String a (q ++ sub ++ r)).
    cbv delta [index] fix beta iota. fold index.
    destruct (String.prefix sub (String a (q ++ sub ++ r))); [reflexivity|].
    destruct (index 0 sub (q ++ sub ++ r)); [reflexivity|discriminate].
Qed.

Lemma psycopg_connection_plain_scheme_eq (x : string) :
  psycopg_connection ("postgresql://" ++ x) = "postgresql+psycopg://" ++ x.
Proof.
  unfold psycopg_connection. rewrite prefix_app_self.
  unfold replace_first. rewrite index0_of_prefix by apply prefix_app_self.
  change (substring 0 0 _) with EmptyString.
  change (0 + String.length "postgresql://") with (String.length "postgresql://").
  rewrite substring_after_prefix. reflexivity.
Qed.

Lemma psycopg_connection_driver_prefix_aux (s : string) :
  contains "://" s = true -> String.prefix "postgresql+psycopg://" (psycopg_connection s) = true.
Proof.
  intros Hc. destruct (String.prefix "postgresql://" s) eqn:E1.
  - apply prefix_app_inv in E1 as [r ->]. rewrite psycopg_connection_plain_scheme_eq.
    apply prefix_app_self.
  - unfold psycopg_connection. rewrite E1.
    destruct (String.prefix "postgresql+psycopg://" s) eqn:E2; cbn [negb andb].
    + exact E2.
    + rewrite Hc. apply prefix_app_self.
Qed.

(** A [postgresql://] URI only has its scheme rewritten to
    [postgresql+psycopg://]: host, credentials, database and query are kept
    verbatim (only the first occurrence of the scheme is replaced). *)
Theorem psycopg_connection_plain_scheme (x : string) :
  psycopg_connection ("postgresql://" ++ x) = "postgresql+psycopg://" ++ x.
Proof. exact (psycopg_connection_plain_scheme_eq x). Qed.

(** Any connection string with a scheme ([://]) comes out with the psycopg
    driver scheme [postgresql+psycopg://]. *)
Theorem psycopg_connection_driver_prefix (s : string) :
  contains "://" s = true -> String.prefix "postgresql+psycopg://" (psycopg_connection s) = true.
Proof. exact (psycopg_connection_driver_prefix_aux s). Qed.

(** Forcing the driver twice is the same as forcing it once. *)
Theorem psycopg_connection_idempotent (s : string) :
  psycopg_connection (psycopg_connection s) = psycopg_connection s.
Proof.
  destruct (contains "://" s) eqn:Hc.
  - apply psycopg_connection_driver_prefix_aux in Hc.
    apply prefix_app_inv in Hc as [r Hr]. rewrite Hr. apply psycopg_connection_of_driver_uri.
  - destruct (String.prefix "postgresql://" s) eqn:E1.
    + apply prefix_app_inv in E1 as [r ->]. exfalso.
      change ("postgresql://" ++ r) with ("postgresql" ++ "://" ++ r) in Hc.
      rewrite contains_middle in Hc. discriminate.
    + assert (Hs : psycopg_connection s = s).
      { unfold psycopg_connection. rewrite E1, Hc, andb_false_r. reflexivity. }
      rewrite Hs. exact Hs.
Qed.

(** ** Thread deletion *)

Lemma filter_length_split {A} (P : A -> Prop) `{forall x, Decision (P x)} (l : list A) :
  (length (filter (fun x => ~ P x) l) + length (filter P l) = length l)%nat.
Proof.
  induction l as [|x l IH]; [reflexivity|]. rewrite !filter_cons.
  case_decide; case_decide; simpl; try contradiction; lia.
Qed.

Lemma delete_where_count (t : string) (tbl : list row) :
  delete_where t tbl = (filter (fun r => row_thread_id r <> t) tbl,
                        length (filter (fun r => row_thread_id r = t) tbl)).
Proof.
  unfold delete_where. f_equal.
  pose proof (filter_length_split (fun r => row_thread_id r = t) tbl). lia.
Qed.

(** Each row count [delete_thread] logs is the number of rows of the thread
    in that table, and the migrations table is never touched.  With the
    database down it answers 500 and changes nothing. *)
Theorem delete_thread_counts (db : checkpoint_db) (tid : string) :
  let '(st, db', (w, b, c)) := delete_thread db tid in
  checkpoint_migrations db' = checkpoint_migrations db /\
  if db_up db then
    st = NoContent /\
    w = length (filter (fun r => row_thread_id r = tid) (checkpoint_writes db)) /\
    b = length (filter (fun r => row_thread_id r = tid) (checkpoint_blobs db)) /\
    c = length (filter (fun r => row_thread_id r = tid) (checkpoints db))
  else
    st = InternalServerError "Failed to delete thread: connection failed" /\ db' = db /\
    w = 0%nat /\ b = 0%nat /\ c = 0%nat.
Proof.
  unfold delete_thread. destruct (db_up db) eqn:Hup.
  - rewrite !delete_where_count. simpl. split_and!; reflexivity.
  - simpl. split_and!; reflexivity.
Qed.

Lemma filter_comm {A} (P Q : A -> Prop) `{forall x, Decision (P x)} `{forall x, Decision (Q x)}
    (l : list A) :
  filter P (filter Q l) = filter Q (filter P l).
Proof.
  induction l as [|x l IH]; [reflexivity|]. rewrite !filter_cons.
  case_decide; case_decide; rewrite ?filter_cons; repeat case_decide;
    try contradiction; rewrite ?IH; reflexivity.
Qed.

(** Deleting two threads leaves the same database in either order. *)
Theorem delete_thread_commute (db : checkpoint_db) (t1 t2 : string) :
  (delete_thread (delete_thread db t1).1.2 t2).1.2 = (delete_thread (delete_thread db t2).1.2 t1).1.2.
Proof.
  unfold delete_thread. destruct (db_up db) eqn:Hup; simpl; rewrite ?Hup; simpl; [|reflexivity].
  f_equal; apply filter_comm.
Qed.

(** ** Document retrieval *)

(** What [retrieve_context] returns is the serialization (with scores) of
    its artifact, and the artifact is either the vector-store hits or,
    with re-ranking enabled on a non-empty hit list, the non-empty list the
    re-ranker returned. *)
Theorem retrieve_context_artifact (settings : Settings) (ss compress : result (list doc))
    (s : string) (docs : list doc) :
  retrieve_context settings ss compress = Ok (ContentArtifact s docs) ->
  s = serialize_documents docs true /\
  (ss = Ok docs \/
   (rerank_enabled settings = true /\ compress = Ok docs /\ docs <> [] /\
    exists retrieved, ss = Ok retrieved /\ retrieved <> [])).
Proof.
  unfold retrieve_context. destruct ss as [retrieved|e]; [|discriminate].
  destruct (rerank_enabled settings) eqn:Hr; cbn [andb].
  - case_bool_decide as Hn; cbn [negb].
    + intros [= <- <-]. auto.
    + unfold rerank_documents. rewrite Hr. cbn [negb orb]. rewrite bool_decide_false by exact Hn.
      destruct compress as [[|d ds]|[]]; try discriminate.
      * intros [= <- <-]. auto.
      * intros H. inversion H; subst. split; [reflexivity|]. right.
        split_and!; [reflexivity|reflexivity|discriminate|]. exists retrieved. auto.
  - intros [= <- <-]. auto.
Qed.

(** A failing re-ranker is not caught: with re-ranking enabled and a
    non-empty hit list, [retrieve_context] raises [ImportError("Could not
    import DashScopeRerank. ...")] when the failure is an [ImportError], and
    [RuntimeError("Rerank failed: ...")] for any other exception. *)
Theorem retrieve_context_rerank_error (settings : Settings) (retrieved : list doc) (e : exn) :
  rerank_enabled settings = true -> retrieved <> [] ->
  retrieve_context settings (Ok retrieved) (Raise e) =
    Raise (match e with
           | ImportError _ =>
               ImportError "Could not import DashScopeRerank. Please install it with `pip install dashscope`."
           | _ => RuntimeError ("Rerank failed: " ++ exn_str e)
           end).
Proof.
  intros Hr Hn. unfold retrieve_context, rerank_documents. rewrite Hr.
  rewrite bool_decide_false by exact Hn. simpl. destruct e; reflexivity.
Qed.

(** With re-ranking disabled the re-ranker's answer plays no role. *)
Theorem retrieve_context_rerank_disabled (settings : Settings) (ss c1 c2 : result (list doc)) :
  rerank_enabled settings = false ->
  retrieve_context settings ss c1 = retrieve_context settings ss c2.
Proof. intros Hr. unfold retrieve_context. rewrite Hr. reflexivity. Qed.

(** ** The project-search client *)

(** With a cached (truthy) token and an answer other than 401, [search]
    sends exactly one request, the search with the cached bearer token,
    and returns the checked answer; no token request is sent and the
    cached token is kept. *)
Theorem search_cached_token (env : nat -> http_answer) (q : string) (lim : Z) (st : client_state) :
  py_truthy (token st) = true ->
  (forall body, env (length (http_log st)) <> HResp 401 body) ->
  search env q lim st =
  checked (env (length (http_log st)))
    {| token := token st;
       http_log := (http_log st ++ [(GetSearch q lim (token st), env (length (http_log st)))])%list |}.
Proof.
  intros Ht H401. unfold search, cbind, ctry, get_token, cbind, get_token_field. rewrite Ht.
  unfold cret, search_once, cbind, http. simpl.
  destruct (env (length (http_log st))) as [code body| |m] eqn:Ea; simpl; try reflexivity.
  destruct (andb (200 <=? code)%Z (code <? 300)%Z) eqn:E2; [reflexivity|].
  unfold craise. destruct (Z.eqb code 401) eqn:E4; [|reflexivity].
  apply Z.eqb_eq in E4. subst. exfalso. exact (H401 body eq_refl).
Qed.

(** Without a cached token, a failed token request ends [search]: the
    failure propagates, no search request is sent and nothing is cached. *)
Theorem search_token_failure (env : nat -> http_answer) (q : string) (lim : Z) (st : client_state)
    (e : exn) :
  py_truthy (token st) = false ->
  fst (checked (env (length (http_log st))) st) = Raise e ->
  search env q lim st =
  (Raise e, {| token := token st;
               http_log := (http_log st ++ [(PostToken, env (length (http_log st)))])%list |}).
Proof.
  intros Ht Hf. unfold search, cbind, ctry, get_token, cbind, get_token_field. rewrite Ht.
  unfold http. simpl.
  destruct (env (length (http_log st))) as [code body| |m]; simpl in Hf |- *.
  - destruct (andb (200 <=? code)%Z (code <? 300)%Z); [discriminate|]. inversion Hf. reflexivity.
  - inversion Hf. reflexivity.
  - inversion Hf. reflexivity.
Qed.

(** ** The project-search tool *)

(** With the tool configured, a failing token request becomes the
    tool's answer: a timeout, a transport error or a non-2xx code, or a
    token response without [access_token], each gives its own message. *)
Theorem search_projects_impl_token_failure (settings : Settings) (env : nat -> http_answer) (q : string) :
  project_search_enabled settings = true ->
  truthy (project_search_api_url settings) = true ->
  truthy (project_search_api_username settings) = true ->
  truthy (project_search_api_password settings) = true ->
  match env 0%nat with
  | HTimeout => search_projects_impl settings env q = Ok "项目搜索服务响应超时"
  | HNetError _ => search_projects_impl settings env q = Ok "项目搜索服务暂时不可用"
  | HResp code body =>
      if andb (200 <=? code)%Z (code <? 300)%Z then
        match py_get "access_token" body with
        | None => search_projects_impl settings env q = Ok "项目搜索失败，请稍后重试"
        | Some _ => True
        end
      else search_projects_impl settings env q = Ok "项目搜索服务暂时不可用"
  end.
Proof.
  intros He Hu Hn Hp. unfold search_projects_impl. rewrite He, Hu, Hn, Hp. cbn [negb orb].
  unfold search_projects_body, search, cbind, ctry, get_token, cbind, get_token_field, http.
  simpl. destruct (env 0%nat) as [code body| |m]; simpl; try reflexivity.
  destruct (andb (200 <=? code)%Z (code <? 300)%Z); simpl; [|reflexivity].
  destruct (py_get "access_token" body); reflexivity.
Qed.

(** A search answer without items (a missing, empty or otherwise falsy
    [items]) gives the "no project found" message naming the query. *)
Theorem search_projects_impl_no_items (settings : Settings) (env : nat -> http_answer) (q : string)
    (c0 c1 : Z) (b0 t : pyval) (kvs : list (pyval * pyval)) :
  project_search_enabled settings = true ->
  truthy (project_search_api_url settings) = true ->
  truthy (project_search_api_username settings) = true ->
  truthy (project_search_api_password settings) = true ->
  env 0%nat = HResp c0 b0 -> (200 <= c0 < 300)%Z -> py_get "access_token" b0 = Some t ->
  env 1%nat = HResp c1 (PyDict kvs) -> (200 <= c1 < 300)%Z ->
  py_truthy (default (PyList []) (py_get "items" (PyDict kvs))) = false ->
  search_projects_impl settings env q = Ok ("未找到与 '" ++ q ++ "' 相关的项目").
Proof.
  intros He Hu Hn Hp E0 C0 T E1 C1 Hi. unfold search_projects_impl. rewrite He, Hu, Hn, Hp. cbn [negb orb].
  unfold search_projects_body, search, cbind, ctry, get_token, cbind, get_token_field, http.
  simpl. rewrite E0. simpl.
  assert (Hc0 : andb (200 <=? c0)%Z (c0 <? 300)%Z = true) by (apply andb_true_iff; lia).
  rewrite Hc0. unfold cret. simpl. rewrite T. unfold search_once, cbind, http. simpl.
  rewrite E1. simpl.
  assert (Hc1 : andb (200 <=? c1)%Z (c1 <? 300)%Z = true) by (apply andb_true_iff; lia).
  rewrite Hc1. simpl. unfold py_get in Hi. rewrite Hi. reflexivity.
Qed.

Lemma append_empty_r (s : string) : s ++ EmptyString = s.
Proof.
  induction s as [|a s IH]; [reflexivity|].
  change (String a (s ++ EmptyString) = String a s). rewrite IH. reflexivity.
Qed.

Lemma substring_0_length_le (n : nat) (t : string) :
  (n <= String.length t)%nat -> String.length (substring 0 n t) = n.
Proof.
  revert t. induction n as [|n IH]; intros t H; [destruct t; reflexivity|].
  destruct t as [|a t]; simpl in H; [lia|]. simpl. f_equal. apply IH. lia.
Qed.

Lemma length_append_str (s1 s2 : string) :
  String.length (s1 ++ s2) = (String.length s1 + String.length s2)%nat.
Proof.
  induction s1 as [|a s1 IH]; [reflexivity|].
  change (S (String.length (s1 ++ s2)) = S (String.length s1 + String.length s2))%nat.
  rewrite IH. reflexivity.
Qed.

Lemma py_len_app (s1 s2 : string) : py_len (s1 ++ s2) = (py_len s1 + py_len s2)%nat.
Proof.
  induction s1 as [|a s1 IH]; [reflexivity|].
  change (py_len (String a (s1 ++ s2)) = (py_len (String a s1) + py_len s2)%nat).
  cbn [py_len]. rewrite IH. lia.
Qed.

Lemma py_len_take (n : nat) (t : string) : py_len (py_take n t) = Nat.min n (py_len t).
Proof.
  revert n. induction t as [|a t IH]; intros n; [simpl; lia|].
  cbn [py_take py_len]. destruct (utf8_cont a) eqn:Ea.
  - cbn [py_len]. rewrite Ea, IH. reflexivity.
  - destruct n as [|n]; cbn [py_len]; rewrite ?Ea; [reflexivity|]. rewrite IH. lia.
Qed.

Lemma py_take_prefix (n : nat) (t : string) : String.prefix (py_take n t) t = true.
Proof.
  revert n. induction t as [|a t IH]; intros n; [reflexivity|].
  cbn [py_take]. destruct (utf8_cont a); [|destruct n as [|n]].
  - cbv delta [String.prefix] fix beta iota. fold String.prefix.
    destruct (Ascii.ascii_dec a a) as [_|n']; [apply IH|congruence].
  - reflexivity.
  - cbv delta [String.prefix] fix beta iota. fold String.prefix.
    destruct (Ascii.ascii_dec a a) as [_|n']; [apply IH|congruence].
Qed.

(** For a technology string, the technology line holds at most 203
    characters (code points): a string of more than 200 characters is cut
    to its first 200 characters followed by ["..."], a shorter one is kept
    whole. *)
Theorem truncate_tech_bound (t : string) :
  match truncate_tech (PyStr t) with
  | Ok r => (py_len r <= 203)%nat /\ ((py_len t <= 200)%nat -> r = t) /\
            (200 < py_len t -> r = py_take 200 t ++ "..." /\ py_len r = 203 /\
                                String.prefix (py_take 200 t) t = true)
  | Raise _ => False
  end.
Proof.
  cbn [truncate_tech]. destruct (Nat.ltb 200 (py_len t)) eqn:E.
  - apply Nat.ltb_lt in E. rewrite py_len_app, py_len_take.
    change (py_len "...") with 3%nat.
    split_and!; [lia|lia|intros _; split_and!; [reflexivity|lia|apply py_take_prefix]].
  - apply Nat.ltb_ge in E. split_and!; [lia|reflexivity|lia].
Qed.

Lemma join_cons_prefix (sep x : string) (rest : list string) :
  String.prefix x (join sep (x :: rest)) = true.
Proof.
  destruct rest as [|y r].
  - rewrite <- (append_empty_r x) at 2. apply prefix_app_self.
  - change (join sep (x :: y :: r)) with (x ++ sep ++ join sep (y :: r)). apply prefix_app_self.
Qed.

(** A formatted project starts with its bold name line [**name**] (["N/A"]
    when the project has no name). *)
Theorem format_project_header (kvs : list (pyval * pyval)) (s : string) :
  format_project (PyDict kvs) = Ok s ->
  String.prefix ("**" ++ py_str (default (PyStr "N/A") (py_get "project_name" (PyDict kvs))) ++ "**") s = true.
Proof.
  unfold format_project. cbn [get_or].
  set (hd := "**" ++ py_str (default (PyStr "N/A") (py_get "project_name" (PyDict kvs))) ++ "**").
  destruct (if py_truthy _ then _ else _) as [l4|e]; [|discriminate].
  destruct (default PyNone (py_get "core_team" (PyDict kvs))) as [| | | | |[|t ts]| | | |];
    try (intros [= <-]; apply join_cons_prefix).
  destruct (team_names (t :: ts)) as [[|n ns]|e]; try discriminate;
    [intros [= <-]; apply join_cons_prefix|].
  destruct (join_items (n :: ns)) as [ss|e]; [|discriminate].
  intros [= <-]; apply join_cons_prefix.
Qed.

(** ** Delivery order of the WebSocket subscription *)

Lemma ids_increasing_sorted (es : list stream_entry) :
  ids_increasing es = true -> StronglySorted (fun a b => sid_ltb a.1 b.1 = true) es.
Proof.
  intros H. apply Sorted_StronglySorted.
  - intros a b c Hab Hbc. exact (sid_ltb_trans _ _ _ Hab Hbc).
  - induction es as [|e1 [|e2 es] IH]; [constructor|repeat constructor|].
    cbn [ids_increasing] in H. apply andb_true_iff in H as [H12 Hr].
    constructor; [exact (IH Hr)|]. constructor. exact H12.
Qed.

Lemma sorted_filter (R : stream_entry -> stream_entry -> Prop) (P : stream_entry -> Prop)
    `{forall x, Decision (P x)} (es : list stream_entry) :
  StronglySorted R es -> StronglySorted R (filter P es).
Proof.
  induction es as [|e es IH]; intros Hs; [constructor|].
  apply StronglySorted_inv in Hs as [Hs Hf]. rewrite filter_cons. case_decide.
  - constructor; [exact (IH Hs)|]. apply Forall_forall. intros y Hy.
    apply list_elem_of_filter in Hy as [_ Hy]. rewrite Forall_forall in Hf. exact (Hf y Hy).
  - exact (IH Hs).
Qed.

Lemma sorted_take (R : stream_entry -> stream_entry -> Prop) (n : nat) (es : list stream_entry) :
  StronglySorted R es -> StronglySorted R (take n es).
Proof.
  intros Hs. rewrite <- (take_drop n es) in Hs. exact (StronglySorted_app_1_l _ _ _ Hs).
Qed.

Lemma last_of_upper (es : list stream_entry) (x : sid) :
  StronglySorted (fun a b => sid_ltb a.1 b.1 = true) es ->
  Forall (fun e => e.1 = last_of es x \/ sid_ltb e.1 (last_of es x) = true) es.
Proof.
  revert x. induction es as [|e es IH]; intros x Hs; [constructor|].
  apply StronglySorted_inv in Hs as [Hs Hf].
  assert (Hl : last_of (e :: es) x = last_of es e.1) by reflexivity.
  rewrite Hl. constructor; [|exact (IH e.1 Hs)].
  destruct (last_of_cases es e.1) as [Hx|Hin]; [left; symmetry; exact Hx|right].
  apply in_map_iff in Hin as [e' [He' Hin]]. apply list_elem_of_In in Hin.
  rewrite Forall_forall in Hf. rewrite <- He'. exact (Hf e' Hin).
Qed.

(** Redis keeps the entries of a stream in increasing id order.  Under
    that invariant the new-message loop of the subscription delivers
    entries in strictly increasing id order, all after the starting id:
    no entry is ever delivered twice, even across failed XREAD rounds. *)
Theorem stream_new_messages_increasing (tid : string) (x : sid) (rounds : list redis_store) :
  Forall (fun st => ids_increasing (stream_at st (stream_key tid)) = true) rounds ->
  exists es, stream_new_messages tid x rounds = map (fun e => SentJson (new_frame e)) es /\
             StronglySorted (fun a b => sid_ltb a.1 b.1 = true) es /\
             Forall (fun e => sid_ltb x e.1 = true) es /\
             NoDup (map fst es).
Proof.
  intros Hr.
  assert (Hmain : exists es, stream_new_messages tid x rounds = map (fun e => SentJson (new_frame e)) es /\
             StronglySorted (fun a b => sid_ltb a.1 b.1 = true) es /\
             Forall (fun e => sid_ltb x e.1 = true) es).
  { revert x. induction Hr as [|st rest Hst Hrest IH]; intros x; [exists []; split_and!; constructor|].
    cbn [stream_new_messages]. destruct (xread st (stream_key tid) x) as [es|err] eqn:E; [|apply IH].
    pose proof (xread_after _ _ _ _ E) as Hafter.
    assert (Hs : StronglySorted (fun a b => sid_ltb a.1 b.1 = true) es).
    { unfold xread in E. destruct (redis_up st); inversion E; subst.
      apply sorted_take, sorted_filter, ids_increasing_sorted, Hst. }
    destruct (IH (last_of es x)) as (es' & Heq & Hs' & Ha').
    exists (es ++ es')%list. rewrite Heq, map_app. split; [reflexivity|]. split.
    - apply StronglySorted_app_2; [|exact Hs|exact Hs'].
      intros e f He Hf. pose proof (last_of_upper es x Hs) as Hu.
      rewrite Forall_forall in Hu, Ha'. specialize (Ha' f Hf).
      destruct (Hu e He) as [Hq|Hlt]; [rewrite Hq; exact Ha'|exact (sid_ltb_trans _ _ _ Hlt Ha')].
    - apply Forall_app. split; [exact Hafter|].
      eapply Forall_impl; [exact Ha'|]. intros f Hf.
      destruct (last_of_cases es x) as [Hx|Hin]; [rewrite <- Hx; exact Hf|].
      apply in_map_iff in Hin as [e' [He' Hin]]. apply list_elem_of_In in Hin.
      rewrite Forall_forall in Hafter. specialize (Hafter e' Hin). rewrite He' in Hafter.
      exact (sid_ltb_trans _ _ _ Hafter Hf). }
  destruct Hmain as (es & Heq & Hs & Ha). exists es. split_and!; [exact Heq|exact Hs|exact Ha|].
  clear Heq Ha. induction Hs as [|e es Hs IH Hf]; [constructor|]. cbn [map]. constructor; [|exact IH].
  intros Hin. apply list_elem_of_fmap in Hin as [e' [He' Hin]].
  rewrite Forall_forall in Hf. specialize (Hf e' Hin). rewrite <- He' in Hf.
  destruct e.1 as [a b]. unfold sid_ltb in Hf. simpl in Hf.
  rewrite orb_true_iff, andb_true_iff, N.ltb_lt, N.eqb_eq, N.ltb_lt in Hf. lia.
Qed.

(** A subscriber without offset whose history read (XRANGE) fails gets no
    replay: the new-message loop starts from id [0-0], so every entry of
    the log is then delivered as a new message, without [is_history]. *)
Theorem websocket_stream_history_failure (settings : Settings) (tid : string) (hist : redis_store)
    (rounds : list redis_store) (pm : list (string * string)) :
  redis_stream_enabled settings = true -> redis_up hist = false ->
  websocket_stream settings tid None hist rounds pm = stream_new_messages tid (0, 0)%N rounds.
Proof.
  intros Hs Hd. unfold websocket_stream, send_stream_history, xrange. rewrite Hs, Hd. reflexivity.
Qed.

(** ** The user-visible history of a thread *)

Lemma filter_visible_from_app (tid : string) (i : nat) (l1 l2 : list (message * option string)) :
  filter_visible_from tid i (l1 ++ l2) =
  (filter_visible_from tid i l1 ++ filter_visible_from tid (i + length l1) l2)%list.
Proof.
  revert i. induction l1 as [|[m mid] l1 IH]; intros i; simpl; [rewrite Nat.add_0_r; reflexivity|].
  rewrite IH. replace (S i + length l1)%nat with (i + S (length l1))%nat by lia.
  destruct (user_visible m); reflexivity.
Qed.

Lemma filter_visible_from_roles (tid : string) (i j : nat) (l : list (message * option string)) :
  map (fun e => (hm_role e, hm_content e)) (filter_visible_from tid i l) =
  map (fun e => (hm_role e, hm_content e)) (filter_visible_from tid j l).
Proof.
  revert i j. induction l as [|[m mid] l IH]; intros i j; simpl; [reflexivity|].
  destruct (user_visible m); simpl; rewrite (IH (S i) (S j)); reflexivity.
Qed.

Lemma elem_of_filter_visible_from (tid : string) (k : nat) (msgs : list (message * option string))
    (e : HistoryMessage) :
  e ∈ filter_visible_from tid k msgs <->
  exists i m mid, msgs !! i = Some (m, mid) /\ user_visible m = true /\
                  e = history_entry tid (k + i) m mid.
Proof.
  revert k. induction msgs as [|[m0 mid0] msgs IH]; intros k; simpl.
  - split; [intros H; inversion H|]. intros (i & m & mid & H & _). inversion H.
  - assert (Hr : e ∈ filter_visible_from tid (S k) msgs <->
                 exists i m mid, ((m0, mid0) :: msgs) !! S i = Some (m, mid) /\ user_visible m = true /\
                                 e = history_entry tid (k + S i) m mid).
    { rewrite IH. split; intros (i & m & mid & H1 & H2 & H3); exists i, m, mid;
        (split_and!; [exact H1|exact H2|rewrite H3; f_equal; lia]). }
    destruct (user_visible m0) eqn:Hv.
    + rewrite elem_of_cons, Hr. split.
      * intros [->|(i & m & mid & H)]; [exists 0%nat, m0, mid0; rewrite Nat.add_0_r; auto|].
        exists (S i), m, mid. exact H.
      * intros ([|i] & m & mid & H1 & H2 & H3).
        -- left. inversion H1; subst. rewrite Nat.add_0_r. reflexivity.
        -- right. exists i, m, mid. auto.
    + rewrite Hr. split.
      * intros (i & m & mid & H). exists (S i), m, mid. exact H.
      * intros ([|i] & m & mid & H1 & H2 & H3).
        -- inversion H1; subst. congruence.
        -- exists i, m, mid. auto.
Qed.

(** The history entries of a thread are exactly the entries built for its
    user-visible messages (human messages, and AI messages with content and
    without tool calls), each with the position of its message. *)
Theorem filter_user_visible_messages_spec (msgs : list (message * option string)) (tid : string)
    (e : HistoryMessage) :
  e ∈ filter_user_visible_messages msgs tid <->
  exists i m mid, msgs !! i = Some (m, mid) /\ user_visible m = true /\
                  e = history_entry tid i m mid.
Proof. unfold filter_user_visible_messages. apply elem_of_filter_visible_from. Qed.

Lemma string_app_inj_l (p a b : string) : p ++ a = p ++ b -> a = b.
Proof.
  induction p as [|c p IH]; [exact id|]. intros H.
  change (String c (p ++ a) = String c (p ++ b)) in H. injection H. exact IH.
Qed.

Lemma fallback_id_inj (tid : string) (i j : nat) :
  tid ++ "_" ++ pretty (N.of_nat i) = tid ++ "_" ++ pretty (N.of_nat j) -> i = j.
Proof.
  intros H. apply string_app_inj_l in H. change ("_" ++ pretty (N.of_nat i)) with
    (String "_" (pretty (N.of_nat i))) in H.
  change ("_" ++ pretty (N.of_nat j)) with (String "_" (pretty (N.of_nat j))) in H.
  injection H as H. apply (inj pretty) in H. lia.
Qed.

(** When no message carries an id, the history entries get the fallback
    ids [{thread_id}_{i}], and these are pairwise distinct. *)
Theorem filter_user_visible_fallback_ids (msgs : list (message * option string)) (tid : string) :
  Forall (fun p => p.2 = None) msgs ->
  NoDup (map hm_id (filter_user_visible_messages msgs tid)).
Proof.
  intros Hn. unfold filter_user_visible_messages.
  assert (Hgen : forall k, NoDup (map hm_id (filter_visible_from tid k msgs)) /\
                 forall x, x ∈ map hm_id (filter_visible_from tid k msgs) ->
                           exists j, (k <= j)%nat /\ x = tid ++ "_" ++ pretty (N.of_nat j)).
  { induction Hn as [|[m mid] msgs Hmid Hn IH]; intros k; simpl.
    - split; [constructor|]. intros x Hx. inversion Hx.
    - simpl in Hmid. subst mid. destruct (IH (S k)) as [Hnd Hin].
      destruct (user_visible m); cbn [map].
      + split.
        * constructor; [|exact Hnd]. intros Hx. destruct (Hin _ Hx) as (j & Hj & Heq).
          simpl in Heq. apply fallback_id_inj in Heq. lia.
        * intros x Hx. apply elem_of_cons in Hx as [->|Hx].
          -- exists k. split; [lia|reflexivity].
          -- destruct (Hin x Hx) as (j & Hj & ->). exists j. split; [lia|reflexivity].
      + split; [exact Hnd|]. intros x Hx. destruct (Hin x Hx) as (j & Hj & ->).
        exists j. split; [lia|reflexivity]. }
  apply (Hgen 0%nat).
Qed.

(** ** One turn of the workflow *)

(** A turn keeps the history and the user's message as a prefix of the new
    state, makes one or two model calls, all with the model override of the
    request, and ends with the answer of its last model call. *)
Theorem run_turn_shape (settings : Settings) (now_iso : string)
    (llm : llm_call -> string * list tool_call) (run_tool : tool_call -> string)
    (cfg : configurable) (history : list message) (user : string) :
  let '(msgs, calls) := run_turn settings now_iso llm run_tool cfg history user in
  (exists rest, msgs = (history ++ HumanMessage user :: rest)%list) /\
  (length calls = 1 \/ length calls = 2)%nat /\
  Forall (fun c => call_model c = cfg_chat_model cfg) calls /\
  exists c, last calls = Some c /\ last msgs = Some (llm_answer llm c).
Proof.
  unfold run_turn. destruct (tools_condition _); cbn [length].
  - split_and!.
    + eexists. rewrite <- !app_assoc. reflexivity.
    + right. reflexivity.
    + repeat constructor.
    + eexists. split; [reflexivity|]. rewrite last_app. reflexivity.
  - split_and!.
    + eexists. rewrite <- !app_assoc. reflexivity.
    + left. reflexivity.
    + repeat constructor.
    + eexists. split; [reflexivity|]. rewrite last_app. reflexivity.
Qed.

(** After a turn, the user-visible history of the thread (roles and
    contents) is the one before it, then the user's message, then the final
    answer when it is visible (content and no tool calls); the decision
    message with tool calls and the tool results never show up. *)
Theorem run_turn_visible_history (settings : Settings) (now_iso : string)
    (llm : llm_call -> string * list tool_call) (run_tool : tool_call -> string)
    (cfg : configurable) (history : list message) (user tid : string) :
  let '(msgs, _) := run_turn settings now_iso llm run_tool cfg history user in
  map (fun e => (hm_role e, hm_content e))
      (filter_user_visible_messages (map (fun m => (m, None)) msgs) tid) =
  (map (fun e => (hm_role e, hm_content e))
       (filter_user_visible_messages (map (fun m => (m, None)) history) tid)
   ++ [("user", user)]
   ++ match last msgs with
      | Some m => if user_visible m then [("assistant", extract_content m)] else []
      | None => []
      end)%list.
Proof.
  unfold run_turn, filter_user_visible_messages.
  set (c1 := query_or_respond_call settings now_iso cfg (history ++ [HumanMessage user])%list).
  unfold llm_answer. destruct (llm c1) as [content tcs] eqn:E1.
  unfold tools_condition. rewrite last_app. cbn [last].
  destruct tcs as [|tc tcs].
  - rewrite last_app. cbn [last]. rewrite <- !app_assoc, !map_app, filter_visible_from_app, map_app.
    f_equal. rewrite (filter_visible_from_roles tid _ 0%nat). simpl.
    destruct (negb (content =? EmptyString)); reflexivity.
  - set (c2 := generate_call cfg _). rewrite last_app.
    unfold tools_node. rewrite last_app.
    rewrite <- !app_assoc, !map_app, filter_visible_from_app, map_app.
    f_equal. rewrite (filter_visible_from_roles tid _ 0%nat).
    cbn [app map filter_visible_from user_visible fst].
    rewrite bool_decide_false by discriminate. cbn [andb].
    rewrite filter_visible_from_app, map_app.
    assert (Ht : forall i, filter_visible_from tid i
                   (map (fun m => (m, None)) (map (fun t => ToolMessage (call_name t) (run_tool t)) (tc :: tcs)))
                   = []).
    { generalize (tc :: tcs). induction l as [|t l IH]; intros i; [reflexivity|]. apply IH. }
    rewrite Ht. cbn [app]. rewrite (filter_visible_from_roles tid _ 0%nat).
    destruct (llm c2) as [c' tcs']. simpl.
    destruct (bool_decide (tcs' = []) && negb (c' =? EmptyString)); reflexivity.
Qed.

(** ** Instances of the further properties *)

Lemma psycopg_connection_driver_prefix_witness :
  contains "://" "mysql://svc@db/app" = true /\
  String.prefix "postgresql+psycopg://" (psycopg_connection "mysql://svc@db/app") = true.
Proof.
  split; [vm_compute; reflexivity|].
  apply psycopg_connection_driver_prefix. vm_compute. reflexivity.
Defined.

Lemma retrieve_context_artifact_witness :
  retrieve_context rerank_settings (Ok [sample_doc]) (Ok [])
    = Ok (ContentArtifact (serialize_documents [sample_doc] true) [sample_doc]) /\
  (serialize_documents [sample_doc] true = serialize_documents [sample_doc] true /\
   (Ok [sample_doc] = Ok [sample_doc] \/
    (rerank_enabled rerank_settings = true /\ Ok [] = Ok [sample_doc] /\ [sample_doc] <> [] /\
     exists retrieved, Ok [sample_doc] = Ok retrieved /\ retrieved <> []))).
Proof.
  split; [vm_compute; reflexivity|].
  apply (retrieve_context_artifact rerank_settings (Ok [sample_doc]) (Ok [])). vm_compute. reflexivity.
Defined.

Lemma retrieve_context_rerank_error_witness :
  rerank_enabled rerank_settings = true /\ [sample_doc] <> [] /\
  retrieve_context rerank_settings (Ok [sample_doc]) (Raise (ImportError "No module named 'dashscope'"))
    = Raise (ImportError "Could not import DashScopeRerank. Please install it with `pip install dashscope`.").
Proof.
  split_and!; [reflexivity|discriminate|].
  apply (retrieve_context_rerank_error rerank_settings [sample_doc] (ImportError "No module named 'dashscope'"));
    [reflexivity|discriminate].
Defined.

Lemma retrieve_context_rerank_disabled_witness :
  rerank_enabled default_settings = false /\
  retrieve_context default_settings (Ok [sample_doc]) (Ok [])
    = retrieve_context default_settings (Ok [sample_doc]) (Raise TimeoutException).
Proof.
  split; [reflexivity|]. apply retrieve_context_rerank_disabled. reflexivity.
Defined.

Lemma search_cached_token_witness :
  py_truthy (token cached_client) = true /\
  (forall body, expiring_env (length (http_log cached_client)) <> HResp 401 body) /\
  search expiring_env "atlas" 1 cached_client =
  checked (expiring_env 0)
    {| token := PyStr "tok0";
       http_log := [(GetSearch "atlas" 1 (PyStr "tok0"), expiring_env 0)] |}.
Proof.
  assert (H401 : forall body, expiring_env (length (http_log cached_client)) <> HResp 401 body).
  { intros body H. vm_compute in H. discriminate. }
  split_and!; [reflexivity|exact H401|].
  apply (search_cached_token expiring_env "atlas" 1 cached_client); [reflexivity|exact H401].
Defined.

Lemma search_token_failure_witness :
  py_truthy (token fresh_client) = false /\
  fst (checked (timeout_env 0) fresh_client) = Raise TimeoutException /\
  search timeout_env "atlas" 1 fresh_client =
  (Raise TimeoutException, {| token := PyNone; http_log := [(PostToken, HTimeout)] |}).
Proof.
  split_and!; [reflexivity|reflexivity|].
  apply (search_token_failure timeout_env "atlas" 1 fresh_client TimeoutException); reflexivity.
Defined.

Lemma search_projects_impl_token_failure_witness :
  project_search_enabled project_settings = true /\
  search_projects_impl project_settings timeout_env "Acme" = Ok "项目搜索服务响应超时".
Proof.
  split; [reflexivity|].
  exact (search_projects_impl_token_failure project_settings timeout_env "Acme"
           eq_refl eq_refl eq_refl eq_refl).
Defined.

Lemma search_projects_impl_no_items_witness :
  no_items_env 1 = HResp 200 (PyDict [(PyStr "items", PyList []); (PyStr "total", PyInt 0)]) /\
  search_projects_impl project_settings no_items_env "Acme" = Ok ("未找到与 '" ++ "Acme" ++ "' 相关的项目").
Proof.
  split; [reflexivity|].
  apply (search_projects_impl_no_items project_settings no_items_env "Acme" 200 200
           (PyDict [(PyStr "access_token", PyStr "tok0")]) (PyStr "tok0")
           [(PyStr "items", PyList []); (PyStr "total", PyInt 0)]);
    first [reflexivity | lia].
Defined.

Lemma format_project_header_witness :
  exists s, format_project sample_project = Ok s /\
    String.prefix ("**" ++ py_str (default (PyStr "N/A") (py_get "project_name" sample_project)) ++ "**") s
    = true.
Proof.
  eexists. split; [reflexivity|].
  apply format_project_header. reflexivity.
Defined.

Lemma stream_new_messages_increasing_witness :
  Forall (fun st => ids_increasing (stream_at st (stream_key "t1")) = true)
    [two_entry_redis; down_redis; three_entry_redis] /\
  exists es, stream_new_messages "t1" (0, 0)%N [two_entry_redis; down_redis; three_entry_redis]
               = map (fun e => SentJson (new_frame e)) es /\
             StronglySorted (fun a b => sid_ltb a.1 b.1 = true) es /\
             Forall (fun e => sid_ltb (0, 0)%N e.1 = true) es /\ NoDup (map fst es).
Proof.
  assert (H : Forall (fun st => ids_increasing (stream_at st (stream_key "t1")) = true)
                [two_entry_redis; down_redis; three_entry_redis]).
  { repeat constructor; vm_compute; reflexivity. }
  split; [exact H|]. exact (stream_new_messages_increasing "t1" (0, 0)%N _ H).
Defined.

Lemma websocket_stream_history_failure_witness :
  redis_stream_enabled stream_settings = true /\ redis_up down_redis = false /\
  websocket_stream stream_settings "t1" None down_redis [three_entry_redis] []
    = stream_new_messages "t1" (0, 0)%N [three_entry_redis].
Proof.
  split_and!; [reflexivity|reflexivity|].
  apply websocket_stream_history_failure; reflexivity.
Defined.

Lemma filter_user_visible_fallback_ids_witness :
  Forall (fun p => p.2 = None) tool_turn_msgs /\
  NoDup (map hm_id (filter_user_visible_messages tool_turn_msgs "t1")).
Proof.
  assert (H : Forall (fun p => p.2 = None) tool_turn_msgs) by (repeat constructor).
  split; [exact H|]. exact (filter_user_visible_fallback_ids tool_turn_msgs "t1" H).
Defined.
